(** * AntarUSA: the room/session relay server

    A shallow embedding of the two server builds of the repository,
    [src/server.js] and its sibling build [src/unnamed/part_000], and the
    properties of their Socket.IO handlers.

    The in-memory stores [activeRooms] and [userRoles] are finite maps, the
    per-room [users] set is a list in insertion order (a JS [Set] iterates in
    that order, and [getGuestLanguageInRoom] of [src/server.js] depends on
    it), asynchronous handlers are programs with explicit suspension points,
    and [setTimeout] is a queue of pending callbacks with their due time. *)

From Stdlib Require Import ZArith QArith String Ascii List DecimalString DecimalZ.
From stdpp Require Import base decidable option countable gmap strings list fin_maps.

Local Open Scope string_scope.
Local Open Scope list_scope.

(** ** JavaScript values carried by event payloads *)

(** The fields of an event payload that the handlers read ([room], [role],
    [language], [text], [audioData]) are JSON strings that may be absent
    ([undefined]) or [null]. *)
Inductive jsval :=
  | JUndefined
  | JNull
  | JStr (s : string).

#[global] Instance jsval_eq_dec : EqDecision jsval.
Proof. solve_decision. Defined.

#[global] Instance jsval_countable : Countable jsval.
Proof.
  refine (inj_countable'
    (fun v => match v with
              | JUndefined => inl (inl tt)
              | JNull => inl (inr tt)
              | JStr s => inr s
              end)
    (fun c => match c with
              | inl (inl _) => JUndefined
              | inl (inr _) => JNull
              | inr s => JStr s
              end) _).
  intros []; reflexivity.
Defined.

(** [ToBoolean]: [undefined], [null] and the empty string are falsy. *)
Definition truthy (v : jsval) : bool :=
  match v with
  | JUndefined | JNull => false
  | JStr s => negb (String.eqb s "")
  end.

(** [a || b] *)
Definition js_or (a b : jsval) : jsval := if truthy a then a else b.

(** [a === b] on the values above is structural equality. *)
Definition strict_eq (a b : jsval) : bool := bool_decide (a = b).

(** ** The stores *)

(** [userRoles: socket.id -> { room, role, language }] *)
Record userInfo := UserInfo {
  info_room : jsval;
  info_role : jsval;
  info_language : jsval
}.

(** [activeRooms: roomId -> { hotelName, createdAt, users:Set, guestLanguage }] *)
Record roomData := RoomData {
  hotelName : jsval;
  createdAt : Z;
  users : list string;
  guestLanguage : jsval
}.

Record store := Store {
  activeRooms : gmap jsval roomData;
  userRoles : gmap string userInfo
}.

(** [Set.prototype.add] and [Set.prototype.delete] on an insertion-ordered
    set of socket ids. *)
Definition users_add (id : string) (us : list string) : list string :=
  if bool_decide (id ∈ us) then us else us ++ [id].

Definition users_delete (id : string) (us : list string) : list string :=
  filter (fun u => u <> id) us.

Definition set_users (us : list string) (rd : roomData) : roomData :=
  RoomData (hotelName rd) (createdAt rd) us (guestLanguage rd).

Definition set_guestLanguage (g : jsval) (rd : roomData) : roomData :=
  RoomData (hotelName rd) (createdAt rd) (users rd) g.

(** The object literal both builds store for a room created by a join. *)
Definition new_room (now : Z) : roomData :=
  RoomData (JStr "Unknown Hotel") now [] JNull.

(** ** Client payloads and server events *)

(** The payload of a client event; a field the client left out is
    [JUndefined]. *)
Record payload := Payload {
  room : jsval;
  role : jsval;
  language : jsval;
  audioData : jsval;
  text : jsval
}.

Record spoken := Spoken {
  spoken_text : jsval;
  spoken_language : jsval;
  spoken_languageName : jsval
}.

(** The [messageData] object of a [translation] event. Its [id] and
    [timestamp] (wall clock and [Math.random]) are left out. *)
Record messageData := MessageData {
  msg_room : jsval;
  speaker : jsval;
  original : spoken;
  translated : spoken;
  msg_confidence : Q;
  speakerId : string;
  ttsAvailable : bool
}.

Inductive event :=
  | room_joined (r rl lang : jsval)
  | user_joined (rl lang : jsval) (userId : string)
  | user_left (rl : jsval) (userId : string)
  | room_stats (userCount : nat) (hotel guestLang : jsval)
  | processing_status (status : string) (spk message : jsval)
  | translation (m : messageData)
  | room_info (hotel : jsval) (userCount : nat) (created : Z) (guestLang : jsval)
  | error_event (message : string) (detail : jsval).

(** [socket.emit], [io.to(room).emit] and [socket.to(room).emit]. *)
Inductive target :=
  | ToSocket (id : string)
  | ToRoom (r : jsval)
  | ToOthers (id : string) (r : jsval).

(** ** The external collaborators *)

(** A thrown value: its [message] property and what [String(err)] gives. *)
Record exn := Exn {
  exn_message : jsval;
  exn_toString : string
}.

(** What [transcribeOnce] resolves with; [confidence] is [None] when the
    result carries none ([undefined] or [null]). *)
Record sttResult := SttResult {
  transcript : jsval;
  confidence : option Q
}.

(** What [translateText] resolves with. *)
Record translationResult := TranslationResult {
  translated_text : jsval
}.

Inductive outcome (A : Type) :=
  | Resolved (a : A)
  | Rejected (e : exn).
Arguments Resolved {A} a.
Arguments Rejected {A} e.

(** What a handler does that the outside can see: events it emits and the
    collaborator calls it makes. *)
Inductive action :=
  | Emitted (t : target) (ev : event)
  | CalledTranscribe (audio : string) (lang : jsval)
  | CalledTranslate (txt src tgt : jsval).

(** ** Asynchronous handlers *)

(** An [async] handler body. [Read] looks at the stores as they are when the
    handler runs that step; the two [Await] nodes are the suspension points,
    where other events are processed before the handler goes on. *)
Inductive prog :=
  | Ret
  | Throw (e : exn)
  | Emit (t : target) (ev : event) (k : prog)
  | Read (k : store -> prog)
  | AwaitTranscribe (audio : string) (lang : jsval) (k : outcome sttResult -> prog)
  | AwaitTranslate (txt src tgt : jsval) (k : outcome translationResult -> prog).

(** [try { body } catch (err) { handler }] *)
Fixpoint try_catch (body : prog) (handler : exn -> prog) : prog :=
  match body with
  | Ret => Ret
  | Throw e => handler e
  | Emit t ev k => Emit t ev (try_catch k handler)
  | Read k => Read (fun s => try_catch (k s) handler)
  | AwaitTranscribe a l k => AwaitTranscribe a l (fun o => try_catch (k o) handler)
  | AwaitTranslate x src tgt k => AwaitTranslate x src tgt (fun o => try_catch (k o) handler)
  end.

(** [await transcribeOnce(audio, lang)]: a rejection is thrown at the
    [await]. *)
Definition transcribeOnce (audio : string) (lang : jsval) (k : sttResult -> prog) : prog :=
  AwaitTranscribe audio lang
    (fun o => match o with Resolved r => k r | Rejected e => Throw e end).

(** [await translateText(text, source, target)] *)
Definition translateText (txt src tgt : jsval) (k : translationResult -> prog) : prog :=
  AwaitTranslate txt src tgt
    (fun o => match o with Resolved r => k r | Rejected e => Throw e end).

(** [Buffer.from(audioData || '', 'base64')]: the buffer is kept as its
    base64 text. *)
Definition Buffer_from (audio : jsval) : string :=
  match js_or audio (JStr "") with
  | JStr s => s
  | _ => ""
  end.

(** [String.prototype.trim] on strings of code units below 256: tab, line
    feed, vertical tab, form feed, carriage return, space and no-break
    space are white space. *)
Definition is_space (c : ascii) : bool :=
  let n := nat_of_ascii c in
  ((9 <=? n)%nat && (n <=? 13)%nat) || (n =? 32)%nat || (n =? 160)%nat.

Fixpoint trimStart (s : string) : string :=
  match s with
  | EmptyString => EmptyString
  | String c r => if is_space c then trimStart r else s
  end.

Fixpoint trimEnd (s : string) : string :=
  match s with
  | EmptyString => EmptyString
  | String c r =>
      let r' := trimEnd r in
      if is_space c && String.eqb r' "" then EmptyString else String c r'
  end.

Definition trim (s : string) : string := trimEnd (trimStart s).

(** [v.trim()]. Both call sites reach it only with a string; on [undefined]
    or [null] the call would throw. *)
Definition js_trim (v : jsval) : jsval :=
  match v with
  | JStr s => JStr (trim s)
  | _ => JUndefined
  end.

(** [languageNames[lang] || lang], for a table given as a lookup function.
    The table is looked up by its own keys only; the properties an object
    literal inherits from [Object.prototype] are not modelled. *)
Definition display (names : string -> option string) (lang : jsval) : jsval :=
  match lang with
  | JStr s => match names s with Some n => JStr n | None => lang end
  | _ => lang
  end.

(** [a && b] *)
Definition js_and (a b : jsval) : jsval := if truthy a then b else a.

(** [String(v)], as a template literal renders [v]. *)
Definition to_string (v : jsval) : string :=
  match v with
  | JUndefined => "undefined"
  | JNull => "null"
  | JStr s => s
  end.

(** How a template literal renders an integer such as [Date.now()]. *)
Definition Number_toString (z : Z) : string :=
  NilEmpty.string_of_int (Z.to_int z).

(** [s.split(',')[0]] *)
Fixpoint before_comma (s : string) : string :=
  match s with
  | EmptyString => EmptyString
  | String c r => if Ascii.eqb c "," then EmptyString else String c (before_comma r)
  end.

(** ** The HTTP routes *)

(** What the routes read of a request: [req.body?.hotelName],
    [req.protocol], [req.get('host')] and the [x-forwarded-proto] header. *)
Record request := Request {
  body_hotelName : jsval;
  protocol : string;
  host : jsval;
  x_forwarded_proto : jsval
}.

(** The JSON answer of [POST /api/generate-room]. *)
Record room_response := RoomResponse {
  roomId : string;
  guestUrl : string;
  qrData : string
}.

(** The four variables of [process.env] that [GET /health] looks at. *)
Record environment := Environment {
  AZURE_SPEECH_KEY : jsval;
  AZURE_SPEECH_REGION : jsval;
  AZURE_TRANSLATOR_KEY : jsval;
  AZURE_TRANSLATOR_REGION : jsval
}.

(** The JSON answer of [GET /health], without its [timestamp]. *)
Record health_report := HealthReport {
  health_status : string;
  azureSpeech : bool;
  azureTranslator : bool
}.

(** A pending [setTimeout] callback of the disconnect handler: the time it is
    due and the room its closure captured. *)
Definition timer : Type := Z * jsval.

(** The handlers of one build of the server. *)
Record Server := {
  on_join_room : string -> payload -> Z -> store -> store * list action;
  on_audio_message : string -> payload -> prog;
  on_text_message : string -> payload -> prog;
  on_get_room_info : string -> payload -> store -> list action;
  on_disconnect : string -> Z -> store -> store * list action * list timer;
  on_timeout : jsval -> store -> store
}.

(** ** [src/server.js] *)

Module ServerJs.

Definition languageNames (tag : string) : option string :=
  if String.eqb tag "hi-IN" then Some "Hindi"
  else if String.eqb tag "bn-IN" then Some "Bengali"
  else if String.eqb tag "ta-IN" then Some "Tamil"
  else if String.eqb tag "te-IN" then Some "Telugu"
  else if String.eqb tag "mr-IN" then Some "Marathi"
  else if String.eqb tag "gu-IN" then Some "Gujarati"
  else if String.eqb tag "kn-IN" then Some "Kannada"
  else if String.eqb tag "ml-IN" then Some "Malayalam"
  else if String.eqb tag "pa-IN" then Some "Punjabi"
  else if String.eqb tag "or-IN" then Some "Odia"
  else if String.eqb tag "od-IN" then Some "Odia"
  else if String.eqb tag "es-ES" then Some "Spanish"
  else if String.eqb tag "de-DE" then Some "German"
  else if String.eqb tag "fr-FR" then Some "French"
  else if String.eqb tag "en-IN" then Some "English (India)"
  else if String.eqb tag "en-US" then Some "English (US)"
  else None.

(** The [for (const userId of roomData.users)] loop of
    [getGuestLanguageInRoom]: the first member, in insertion order, whose
    session has role [guest] decides. *)
Fixpoint first_guest_language (roles : gmap string userInfo) (us : list string) : jsval :=
  match us with
  | [] => JStr "hi-IN"
  | userId :: rest =>
      match roles !! userId with
      | Some info =>
          if strict_eq (info_role info) (JStr "guest")
          then js_or (info_language info) (JStr "hi-IN")
          else first_guest_language roles rest
      | None => first_guest_language roles rest
      end
  end.

Definition getGuestLanguageInRoom (r : jsval) (s : store) : jsval :=
  match activeRooms s !! r with
  | None => JStr "hi-IN"
  | Some roomData =>
      if truthy (guestLanguage roomData) then guestLanguage roomData
      else first_guest_language (userRoles s) (users roomData)
  end.

(** [app.get('/health', ...)] *)
Definition health (env : environment) : health_report :=
  let hasSpeech := truthy (js_and (AZURE_SPEECH_KEY env) (AZURE_SPEECH_REGION env)) in
  let hasTrans :=
    truthy (js_and (AZURE_TRANSLATOR_KEY env) (AZURE_TRANSLATOR_REGION env)) in
  HealthReport "ok" hasSpeech hasTrans.

(** [app.post('/api/tts', ...)]: the status code and the [error] text. *)
Definition tts : Z * string := (501%Z, "TTS disabled for MVP").

(** [app.post('/api/generate-room', ...)]. [now] is what [Date.now()] gives,
    [created] what [new Date()] gives, and [suffix] is
    [Math.random().toString(36).slice(2, 8)]. The [.toString()] on the hotel
    name leaves a string as it is. *)
Definition generate_room (req : request) (now created : Z) (suffix : string) (s : store)
  : store * room_response :=
  let hotelName := js_or (body_hotelName req) (JStr "Unknown Hotel") in
  let roomId := ("room_" ++ Number_toString now ++ "_" ++ suffix)%string in
  let rooms := <[ JStr roomId := RoomData hotelName created [] JNull ]> (activeRooms s) in
  let baseUrl := (protocol req ++ "://" ++ to_string (host req))%string in
  let guestUrl := (baseUrl ++ "?room=" ++ roomId)%string in
  (Store rooms (userRoles s), RoomResponse roomId guestUrl guestUrl).

(** [socket.on('join_room', ...)] *)
Definition join_room (id : string) (data : payload) (now : Z) (s : store)
  : store * list action :=
  let room := room data in
  let role := role data in
  let language :=
    match language data with JUndefined => JStr "hi-IN" | l => l end in
  (* leave previous *)
  let prev :=
    match userRoles s !! id with Some i => info_room i | None => JUndefined end in
  let rooms1 :=
    if truthy prev
    then alter (fun pd => set_users (users_delete id (users pd)) pd) prev (activeRooms s)
    else activeRooms s in
  let userLanguage :=
    if strict_eq role (JStr "receptionist") then JStr "en-US" else language in
  let roles1 := <[ id := UserInfo room role userLanguage ]> (userRoles s) in
  let rooms2 :=
    match rooms1 !! room with
    | Some _ => rooms1
    | None => <[ room := new_room now ]> rooms1
    end in
  let rd0 := default (new_room now) (rooms2 !! room) in
  let rd1 := set_users (users_add id (users rd0)) rd0 in
  let rd :=
    if strict_eq role (JStr "guest") then set_guestLanguage userLanguage rd1 else rd1 in
  let rooms3 := <[ room := rd ]> rooms2 in
  (Store rooms3 roles1,
   [ Emitted (ToSocket id) (room_joined room role (display languageNames userLanguage));
     Emitted (ToOthers id room) (user_joined role (display languageNames userLanguage) id);
     Emitted (ToRoom room)
       (room_stats (length (users rd)) (hotelName rd) (guestLanguage rd)) ]).

Definition unauthorized (id : string) : prog :=
  Emit (ToSocket id) (error_event "Not authorized for this room" JUndefined) Ret.

(** The [(sourceLanguage, targetLanguage)] pair both message handlers
    compute. *)
Definition direction (data : payload) (info : userInfo) (s : store) : jsval * jsval :=
  if strict_eq (role data) (JStr "guest")
  then (js_or (language data) (info_language info), JStr "en-US")
  else (JStr "en-US", getGuestLanguageInRoom (room data) s).

(** The [catch] block of a message handler. *)
Definition on_error (id : string) (what : string) (err : exn) : prog :=
  Emit (ToSocket id) (error_event what (exn_message err))
    (Read (fun s =>
       let r :=
         match userRoles s !! id with Some i => info_room i | None => JUndefined end in
       Emit (ToRoom (js_or r (JStr "")))
         (processing_status "error" JUndefined (exn_message err)) Ret)).

(** [socket.on('audio_message', async ...)] *)
Definition audio_message (id : string) (data : payload) : prog :=
  try_catch
    (Read (fun s =>
       match userRoles s !! id with
       | None => unauthorized id
       | Some info =>
           if negb (strict_eq (info_room info) (room data)) then unauthorized id
           else
             Emit (ToRoom (room data))
               (processing_status "transcribing" (role data) JUndefined)
             (let audioBuffer := Buffer_from (audioData data) in
              transcribeOnce audioBuffer (js_or (language data) (info_language info))
                (fun transcription =>
                   if negb (truthy (transcript transcription))
                      || negb (truthy (js_trim (transcript transcription)))
                   then
                     Emit (ToRoom (room data))
                       (processing_status "error" JUndefined (JStr "No speech detected"))
                       Ret
                   else
                     Emit (ToRoom (room data))
                       (processing_status "translating" (role data) JUndefined)
                     (Read (fun s' =>
                        let '(sourceLanguage, targetLanguage) := direction data info s' in
                        translateText (transcript transcription) sourceLanguage targetLanguage
                          (fun tr =>
                             let messageData :=
                               MessageData (room data) (role data)
                                 (Spoken (transcript transcription) sourceLanguage
                                    (display languageNames sourceLanguage))
                                 (Spoken (translated_text tr) targetLanguage
                                    (display languageNames targetLanguage))
                                 (default 0.95%Q (confidence transcription))
                                 id false in
                             Emit (ToRoom (room data)) (translation messageData)
                               (Emit (ToRoom (room data))
                                  (processing_status "complete" JUndefined JUndefined)
                                  Ret))))))
       end))
    (on_error id "Failed to process audio_message").

(** [socket.on('text_message', async ...)] *)
Definition text_message (id : string) (data : payload) : prog :=
  try_catch
    (Read (fun s =>
       match userRoles s !! id with
       | None => unauthorized id
       | Some info =>
           if negb (strict_eq (info_room info) (room data)) then unauthorized id
           else
             Emit (ToRoom (room data))
               (processing_status "translating" (role data) JUndefined)
             (let '(sourceLanguage, targetLanguage) := direction data info s in
              translateText (text data) sourceLanguage targetLanguage
                (fun tr =>
                   let messageData :=
                     MessageData (room data) (role data)
                       (Spoken (text data) sourceLanguage
                          (display languageNames sourceLanguage))
                       (Spoken (translated_text tr) targetLanguage
                          (display languageNames targetLanguage))
                       1.0%Q id false in
                   Emit (ToRoom (room data)) (translation messageData)
                     (Emit (ToRoom (room data))
                        (processing_status "complete" JUndefined JUndefined)
                        Ret)))
       end))
    (on_error id "Failed to process text_message").

(** [socket.on('get_room_info', ...)] *)
Definition get_room_info (id : string) (data : payload) (s : store) : list action :=
  match activeRooms s !! room data with
  | Some rd =>
      [ Emitted (ToSocket id)
          (room_info (hotelName rd) (length (users rd)) (createdAt rd) (guestLanguage rd)) ]
  | None => []
  end.

(** The callback the disconnect handler passes to [setTimeout]. *)
Definition cleanup (r : jsval) (s : store) : store :=
  match activeRooms s !! r with
  | Some rdx =>
      if (length (users rdx) =? 0)%nat
      then Store (delete r (activeRooms s)) (userRoles s)
      else s
  | None => s
  end.

(** [socket.on('disconnect', ...)] *)
Definition disconnect (id : string) (now : Z) (s : store)
  : store * list action * list timer :=
  match userRoles s !! id with
  | None => (s, [], [])
  | Some info =>
      let room := info_room info in
      let role := info_role info in
      let '(rooms1, acts, tms) :=
        match activeRooms s !! room with
        | Some rd0 =>
            let rd1 := set_users (users_delete id (users rd0)) rd0 in
            let rd :=
              if strict_eq role (JStr "guest") then set_guestLanguage JNull rd1 else rd1 in
            (<[ room := rd ]> (activeRooms s),
             [ Emitted (ToOthers id room) (user_left role id);
               Emitted (ToRoom room)
                 (room_stats (length (users rd)) (hotelName rd) (guestLanguage rd)) ],
             if (length (users rd) =? 0)%nat
             then [ ((now + 5 * 60 * 1000)%Z, room) ]
             else [])
        | None => (activeRooms s, [], [])
        end in
      (Store rooms1 (delete id (userRoles s)), acts, tms)
  end.

Definition server : Server :=
  {| on_join_room := join_room;
     on_audio_message := audio_message;
     on_text_message := text_message;
     on_get_room_info := get_room_info;
     on_disconnect := disconnect;
     on_timeout := cleanup |}.

End ServerJs.

(** ** [src/unnamed/part_000], the sibling build *)

Module Part000.

Definition languageNames (tag : string) : option string :=
  if String.eqb tag "hi-IN" then Some "Hindi"
  else if String.eqb tag "bn-IN" then Some "Bengali"
  else if String.eqb tag "ta-IN" then Some "Tamil"
  else if String.eqb tag "te-IN" then Some "Telugu"
  else if String.eqb tag "mr-IN" then Some "Marathi"
  else if String.eqb tag "gu-IN" then Some "Gujarati"
  else if String.eqb tag "kn-IN" then Some "Kannada"
  else if String.eqb tag "ml-IN" then Some "Malayalam"
  else if String.eqb tag "pa-IN" then Some "Punjabi"
  else if String.eqb tag "or-IN" then Some "Odia"
  else if String.eqb tag "od-IN" then Some "Odia"
  else if String.eqb tag "en-US" then Some "English"
  else if String.eqb tag "en-IN" then Some "English"
  else if String.eqb tag "es-ES" then Some "Spanish"
  else if String.eqb tag "de-DE" then Some "German"
  else if String.eqb tag "fr-FR" then Some "French"
  else None.

(** [roomData?.guestLanguage || 'hi-IN'] *)
Definition getGuestLanguageInRoom (r : jsval) (s : store) : jsval :=
  js_or
    (match activeRooms s !! r with
     | Some roomData => guestLanguage roomData
     | None => JUndefined
     end)
    (JStr "hi-IN").

(** [app.get('/health', ...)] *)
Definition health (env : environment) : health_report :=
  let azureSpeechConfigured :=
    truthy (js_and (AZURE_SPEECH_KEY env) (AZURE_SPEECH_REGION env)) in
  let azureTranslatorConfigured :=
    truthy (js_and (AZURE_TRANSLATOR_KEY env) (AZURE_TRANSLATOR_REGION env)) in
  HealthReport
    (if azureSpeechConfigured && azureTranslatorConfigured then "ok" else "degraded")
    azureSpeechConfigured azureTranslatorConfigured.

(** [app.post('/api/generate-room', ...)]. [now] is what [Date.now()] gives,
    [created] what [new Date()] gives, and [suffix] is
    [Math.random().toString(36).slice(2, 8)]. *)
Definition generate_room (req : request) (now created : Z) (suffix : string) (s : store)
  : store * room_response :=
  let hotelName := body_hotelName req in
  let roomId := ("room_" ++ Number_toString now ++ "_" ++ suffix)%string in
  let rooms :=
    <[ JStr roomId := RoomData (js_or hotelName (JStr "Unknown Hotel")) created [] JNull ]>
      (activeRooms s) in
  let proto :=
    before_comma
      (to_string (js_or (js_or (x_forwarded_proto req) (JStr (protocol req)))
                    (JStr "https"))) in
  let baseUrl := (proto ++ "://" ++ to_string (host req))%string in
  let guestUrl := (baseUrl ++ "/?room=" ++ roomId)%string in
  (Store rooms (userRoles s), RoomResponse roomId guestUrl guestUrl).

(** [app.post('/api/tts', ...)]: the status code and the [error] text. *)
Definition tts : Z * string :=
  (501%Z, "TTS disabled in MVP. Enable Azure Speech Synthesis later.").

(** [socket.on('join_room', ...)]. Nothing in the [try] block throws, so
    its [catch] is never entered. *)
Definition join_room (id : string) (data : payload) (now : Z) (s : store)
  : store * list action :=
  let room := room data in
  let role := role data in
  let language := language data in
  if negb (truthy room) || negb (truthy role)
  then (s, [ Emitted (ToSocket id) (error_event "Missing room/role" JUndefined) ])
  else
    (* leave previous *)
    let prev :=
      match userRoles s !! id with Some i => info_room i | None => JUndefined end in
    let rooms1 :=
      if truthy prev
      then alter (fun pr => set_users (users_delete id (users pr)) pr) prev (activeRooms s)
      else activeRooms s in
    (* join new *)
    let rooms2 :=
      match rooms1 !! room with
      | Some _ => rooms1
      | None => <[ room := new_room now ]> rooms1
      end in
    let lang :=
      if strict_eq role (JStr "receptionist")
      then js_or language (JStr "en-US")
      else js_or language (JStr "hi-IN") in
    let roles1 := <[ id := UserInfo room role lang ]> (userRoles s) in
    let rd0 := default (new_room now) (rooms2 !! room) in
    let rd1 := set_users (users_add id (users rd0)) rd0 in
    (* Track guest language at room level *)
    let roomData :=
      if strict_eq role (JStr "guest") then set_guestLanguage lang rd1 else rd1 in
    let rooms3 := <[ room := roomData ]> rooms2 in
    (Store rooms3 roles1,
     [ Emitted (ToSocket id) (room_joined room role (display languageNames lang));
       Emitted (ToRoom room)
         (room_stats (length (users roomData)) (hotelName roomData)
            (guestLanguage roomData));
       Emitted (ToOthers id room) (user_joined role (display languageNames lang) id) ]).

Definition unauthorized (id : string) : prog :=
  Emit (ToSocket id) (error_event "Not authorized for this room" JUndefined) Ret.

(** [String(err?.message || err)] *)
Definition error_text (err : exn) : jsval :=
  if truthy (exn_message err) then exn_message err else JStr (exn_toString err).

(** The [catch] block of a message handler. *)
Definition on_error (id : string) (what : string) (err : exn) : prog :=
  Emit (ToSocket id) (error_event what (error_text err))
    (Read (fun s =>
       let room :=
         match userRoles s !! id with Some i => info_room i | None => JUndefined end in
       if truthy room
       then Emit (ToRoom room) (processing_status "error" JUndefined (error_text err)) Ret
       else Ret)).

(** [stt.confidence || 0.95]: a confidence of zero is falsy. *)
Definition confidence_or_default (c : option Q) : Q :=
  match c with
  | Some q => if Qeq_bool q 0 then 0.95%Q else q
  | None => 0.95%Q
  end.

(** [socket.on('audio_message', async ...)] *)
Definition audio_message (id : string) (data : payload) : prog :=
  try_catch
    (Read (fun s =>
       match userRoles s !! id with
       | None => unauthorized id
       | Some userInfo =>
           if negb (strict_eq (info_room userInfo) (room data)) then unauthorized id
           else
             Emit (ToRoom (room data))
               (processing_status "transcribing" (role data) JUndefined)
             (let audioBuffer := Buffer_from (audioData data) in
              (* 1) STT (from source language) *)
              let sttLang :=
                if strict_eq (role data) (JStr "guest")
                then js_or (language data) (info_language userInfo)
                else JStr "en-US" in
              transcribeOnce audioBuffer sttLang
                (fun stt =>
                   let transcript := js_trim (js_or (transcript stt) (JStr "")) in
                   if negb (truthy transcript)
                   then
                     Emit (ToRoom (room data))
                       (processing_status "error" JUndefined (JStr "No speech detected"))
                       Ret
                   else
                     Emit (ToRoom (room data))
                       (processing_status "translating" (role data) JUndefined)
                     (* 2) Translate *)
                     (Read (fun s' =>
                        let '(sourceLanguage, targetLanguage) :=
                          if strict_eq (role data) (JStr "guest")
                          then (sttLang, JStr "en-US")
                          else (JStr "en-US", getGuestLanguageInRoom (room data) s') in
                        translateText transcript sourceLanguage targetLanguage
                          (fun tr =>
                             let translated := js_or (translated_text tr) (JStr "") in
                             (* 3) Emit to room *)
                             let messageData :=
                               MessageData (room data) (role data)
                                 (Spoken transcript sourceLanguage
                                    (display languageNames sourceLanguage))
                                 (Spoken translated targetLanguage
                                    (display languageNames targetLanguage))
                                 (confidence_or_default (confidence stt))
                                 id false in
                             Emit (ToRoom (room data)) (translation messageData)
                               (Emit (ToRoom (room data))
                                  (processing_status "complete" JUndefined JUndefined)
                                  Ret))))))
       end))
    (on_error id "Failed to process audio message").

(** [socket.on('text_message', async ...)] *)
Definition text_message (id : string) (data : payload) : prog :=
  try_catch
    (Read (fun s =>
       match userRoles s !! id with
       | None => unauthorized id
       | Some userInfo =>
           if negb (strict_eq (info_room userInfo) (room data)) then unauthorized id
           else
             Emit (ToRoom (room data))
               (processing_status "translating" (role data) JUndefined)
             (let '(sourceLanguage, targetLanguage) :=
                if strict_eq (role data) (JStr "guest")
                then (js_or (language data) (info_language userInfo), JStr "en-US")
                else (JStr "en-US", getGuestLanguageInRoom (room data) s) in
              translateText (text data) sourceLanguage targetLanguage
                (fun tr =>
                   let translated := js_or (translated_text tr) (JStr "") in
                   let messageData :=
                     MessageData (room data) (role data)
                       (Spoken (text data) sourceLanguage
                          (display languageNames sourceLanguage))
                       (Spoken translated targetLanguage
                          (display languageNames targetLanguage))
                       1.0%Q id false in
                   Emit (ToRoom (room data)) (translation messageData)
                     (Emit (ToRoom (room data))
                        (processing_status "complete" JUndefined JUndefined)
                        Ret)))
       end))
    (on_error id "Failed to process text message").

(** [socket.on('get_room_info', ...)] *)
Definition get_room_info (id : string) (data : payload) (s : store) : list action :=
  match activeRooms s !! room data with
  | Some roomInfo =>
      [ Emitted (ToSocket id)
          (room_info (hotelName roomInfo) (length (users roomInfo))
             (createdAt roomInfo) (guestLanguage roomInfo)) ]
  | None => []
  end.

(** Clean empty rooms after 5 minutes: the [setTimeout] callback. *)
Definition cleanup (r : jsval) (s : store) : store :=
  match activeRooms s !! r with
  | Some rr =>
      if (length (users rr) =? 0)%nat
      then Store (delete r (activeRooms s)) (userRoles s)
      else s
  | None => s
  end.

(** [socket.on('disconnect', ...)] *)
Definition disconnect (id : string) (now : Z) (s : store)
  : store * list action * list timer :=
  match userRoles s !! id with
  | Some info =>
      let room := info_room info in
      let role := info_role info in
      let '(rooms1, acts, tms) :=
        match activeRooms s !! room with
        | Some r0 =>
            let r1 := set_users (users_delete id (users r0)) r0 in
            let r :=
              if strict_eq role (JStr "guest") then set_guestLanguage JNull r1 else r1 in
            (<[ room := r ]> (activeRooms s),
             [ Emitted (ToOthers id room) (user_left role id);
               Emitted (ToRoom room)
                 (room_stats (length (users r)) (hotelName r) (guestLanguage r)) ],
             if (length (users r) =? 0)%nat
             then [ ((now + 5 * 60 * 1000)%Z, room) ]
             else [])
        | None => (activeRooms s, [], [])
        end in
      (Store rooms1 (delete id (userRoles s)), acts, tms)
  | None => (s, [], [])
  end.

Definition server : Server :=
  {| on_join_room := join_room;
     on_audio_message := audio_message;
     on_text_message := text_message;
     on_get_room_info := get_room_info;
     on_disconnect := disconnect;
     on_timeout := cleanup |}.

End Part000.

(** The two builds. *)
Inductive build := server_js | part_000.

Definition handlers (b : build) : Server :=
  match b with
  | server_js => ServerJs.server
  | part_000 => Part000.server
  end.

Definition getGuestLanguageInRoom (b : build) : jsval -> store -> jsval :=
  match b with
  | server_js => ServerJs.getGuestLanguageInRoom
  | part_000 => Part000.getGuestLanguageInRoom
  end.

(** ** Running a handler *)

(** A settled collaborator call. *)
Inductive settlement :=
  | SttSettled (o : outcome sttResult)
  | TrSettled (o : outcome translationResult).

(** [run p s sched]: what the handler body [p] does when it starts on the
    stores [s] and each of its awaited calls settles as [sched] says, the
    stores having become what [sched] pairs with the settlement by then. A
    handler whose call has not settled within [sched] stays suspended. An
    exception that escapes the body is an unhandled rejection. *)
Fixpoint run (p : prog) (s : store) (sched : list (settlement * store)) : list action :=
  match p with
  | Ret => []
  | Throw _ => []
  | Emit t ev k => Emitted t ev :: run k s sched
  | Read k => run (k s) s sched
  | AwaitTranscribe a l k =>
      CalledTranscribe a l ::
      match sched with
      | (SttSettled o, s') :: rest => run (k o) s' rest
      | _ => []
      end
  | AwaitTranslate x src tgt k =>
      CalledTranslate x src tgt ::
      match sched with
      | (TrSettled o, s') :: rest => run (k o) s' rest
      | _ => []
      end
  end.

(** The synchronous part of [run]: up to the first suspension point, with
    the handler as suspended there. *)
Fixpoint advance (p : prog) (s : store) : list action * option prog :=
  match p with
  | Ret => ([], None)
  | Throw _ => ([], None)
  | Emit t ev k => let '(acts, rest) := advance k s in (Emitted t ev :: acts, rest)
  | Read k => advance (k s) s
  | AwaitTranscribe a l _ => ([CalledTranscribe a l], Some p)
  | AwaitTranslate x src tgt _ => ([CalledTranslate x src tgt], Some p)
  end.

(** ** The server as a transition system *)

Record world := World {
  stores : store;
  clock : Z;
  timers : list timer;
  tasks : list prog;
  log : list action
}.

Definition init : world := World (Store empty empty) 0 [] [] [].

Inductive input :=
  | join_room_ev (id : string) (data : payload)
  | audio_message_ev (id : string) (data : payload)
  | text_message_ev (id : string) (data : payload)
  | get_room_info_ev (id : string) (data : payload)
  | disconnect_ev (id : string)
  | settled (n : nat) (r : settlement)
  | timer_fired (n : nat)
  | elapse (ms : Z).

Section Step.
Variable srv : Server.

(** Start or resume a handler body and park it if it suspends. *)
Definition spawn (p : prog) (w : world) (others : list prog) : world :=
  let '(acts, rest) := advance p (stores w) in
  World (stores w) (clock w) (timers w)
    (others ++ match rest with Some q => [q] | None => [] end)
    (log w ++ acts).

(** One event of the event loop; [None] when the event cannot happen in
    [w] (no such suspended handler or timer, a timer not yet due, time
    running backwards). *)
Definition step (i : input) (w : world) : option world :=
  match i with
  | join_room_ev id data =>
      let '(s, acts) := on_join_room srv id data (clock w) (stores w) in
      Some (World s (clock w) (timers w) (tasks w) (log w ++ acts))
  | audio_message_ev id data =>
      Some (spawn (on_audio_message srv id data) w (tasks w))
  | text_message_ev id data =>
      Some (spawn (on_text_message srv id data) w (tasks w))
  | get_room_info_ev id data =>
      Some (World (stores w) (clock w) (timers w) (tasks w)
              (log w ++ on_get_room_info srv id data (stores w)))
  | disconnect_ev id =>
      let '(s, acts, tms) := on_disconnect srv id (clock w) (stores w) in
      Some (World s (clock w) (timers w ++ tms) (tasks w) (log w ++ acts))
  | settled n r =>
      match tasks w !! n, r with
      | Some (AwaitTranscribe _ _ k), SttSettled o =>
          Some (spawn (k o) w (delete n (tasks w)))
      | Some (AwaitTranslate _ _ _ k), TrSettled o =>
          Some (spawn (k o) w (delete n (tasks w)))
      | _, _ => None
      end
  | timer_fired n =>
      match timers w !! n with
      | Some (due, r) =>
          if (due <=? clock w)%Z
          then Some (World (on_timeout srv r (stores w)) (clock w)
                       (delete n (timers w)) (tasks w) (log w))
          else None
      | None => None
      end
  | elapse ms =>
      if (0 <=? ms)%Z
      then Some (World (stores w) (clock w + ms) (timers w) (tasks w) (log w))
      else None
  end.

(** Run a list of events from [w]. *)
Fixpoint steps (evs : list input) (w : world) : option world :=
  match evs with
  | [] => Some w
  | i :: rest =>
      match step i w with
      | Some w' => steps rest w'
      | None => None
      end
  end.

Inductive reachable : world -> Prop :=
  | reachable_init : reachable init
  | reachable_step i w w' : reachable w -> step i w = Some w' -> reachable w'.

End Step.

(** ** Vocabulary of the properties *)

Inductive kind := Audio | Text.

Definition on_message (srv : Server) (k : kind) : string -> payload -> prog :=
  match k with
  | Audio => on_audio_message srv
  | Text => on_text_message srv
  end.

Definition message_ev (k : kind) : string -> payload -> input :=
  match k with
  | Audio => audio_message_ev
  | Text => text_message_ev
  end.

(** The sending connection holds a session whose room is the declared one. *)
Definition authorized (id : string) (data : payload) (s : store) : Prop :=
  exists info, userRoles s !! id = Some info /\ info_room info = room data.

(** The language pair of the first call to the translation collaborator. *)
Fixpoint resolved_direction (acts : list action) : option (jsval * jsval) :=
  match acts with
  | [] => None
  | CalledTranslate _ src tgt :: _ => Some (src, tgt)
  | _ :: rest => resolved_direction rest
  end.

Definition calls_translate (a : action) : bool :=
  match a with CalledTranslate _ _ _ => true | _ => false end.

Definition emits_translation (a : action) : bool :=
  match a with Emitted _ (translation _) => true | _ => false end.

(** The confidence carried by the [translation] events of a run. *)
Fixpoint confidences (acts : list action) : list Q :=
  match acts with
  | [] => []
  | Emitted _ (translation m) :: rest => msg_confidence m :: confidences rest
  | _ :: rest => confidences rest
  end.

(** Is [a] addressed to the whole room [r] or to the rest of it? *)
Definition broadcast_to (r : jsval) (a : action) : bool :=
  match a with
  | Emitted (ToRoom r') _ | Emitted (ToOthers _ r') _ => bool_decide (r' = r)
  | _ => false
  end.

(** A transcript that is absent, or empty once trimmed. *)
Definition absent_or_blank (t : jsval) : Prop :=
  match t with
  | JStr s => trim s = ""
  | _ => True
  end.

(** Something is left of the transcript once it is trimmed. *)
Definition has_speech (t : jsval) : bool := truthy (js_trim t).

(** The statuses of the [processing_status] events broadcast to room [r]. *)
Fixpoint statuses_to (r : jsval) (acts : list action) : list string :=
  match acts with
  | [] => []
  | Emitted (ToRoom r') (processing_status st _ _) :: rest =>
      if bool_decide (r' = r) then st :: statuses_to r rest else statuses_to r rest
  | _ :: rest => statuses_to r rest
  end.

(** [complete] and [error] are the terminal statuses. *)
Definition is_terminal (st : string) : bool :=
  String.eqb st "complete" || String.eqb st "error".

(** The status of the last action of a run, when that action is a
    [processing_status] event broadcast to room [r]. *)
Definition last_status (r : jsval) (acts : list action) : option string :=
  match last acts with
  | Some (Emitted (ToRoom r') (processing_status st _ _)) =>
      if bool_decide (r' = r) then Some st else None
  | _ => None
  end.

Definition rejected {A : Type} (o : outcome A) : Prop :=
  match o with Rejected _ => True | Resolved _ => False end.

(** The connection's session names the non-empty room [r]. *)
Definition still_in (id : string) (r : jsval) (s : store) : Prop :=
  truthy r = true /\
  exists info, userRoles s !! id = Some info /\ info_room info = r.

(** Every member set holds exactly the connections whose session names the
    room. *)
Definition consistent (s : store) : Prop :=
  forall (r : jsval) (id : string),
    (exists rd, activeRooms s !! r = Some rd /\ id ∈ users rd) <->
    (exists info, userRoles s !! id = Some info /\ info_room info = r).

(** [u] is in the member set of room [r]. *)
Definition member (rooms : gmap jsval roomData) (r : jsval) (u : string) : Prop :=
  exists rd, rooms !! r = Some rd /\ u ∈ users rd.

(** Member sets and sessions agree, and no session names a falsy room. *)
Definition sound (s : store) : Prop :=
  consistent s /\
  forall id info, userRoles s !! id = Some info -> truthy (info_room info) = true.

(** None of the connections [us] holds a session with role [guest]. *)
Definition no_guest_among (roles : gmap string userInfo) (us : list string) : Prop :=
  forall u i, u ∈ us -> roles !! u = Some i -> info_role i <> JStr "guest".

(** The room [r] has no resolved guest language in [s]: its [guestLanguage]
    is falsy, or there is no such room. *)
Definition no_resolved_guest_language (r : jsval) (s : store) : Prop :=
  match activeRooms s !! r with
  | Some rd => truthy (guestLanguage rd) = false
  | None => True
  end.

(** ** Scenarios *)

(** The world after a list of events, from the empty server. *)
Definition after (srv : Server) (evs : list input) : world :=
  default init (steps srv evs init).

Definition says (r rl lang txt : jsval) : payload :=
  Payload r rl lang JUndefined txt.

Definition speaks (r rl lang : jsval) (audio : string) : payload :=
  Payload r rl lang (JStr audio) JUndefined.

Definition joins (r rl lang : jsval) : payload :=
  Payload r rl lang JUndefined JUndefined.

Definition lobby : jsval := JStr "lobby".
Definition guest : jsval := JStr "guest".
Definition receptionist : jsval := JStr "receptionist".

(** A receptionist alone in the lobby. *)
Definition desk_only : list input :=
  [ join_room_ev "r1" (joins lobby receptionist JUndefined) ].

(** A receptionist and a Bengali-speaking guest. *)
Definition desk_and_guest : list input :=
  [ join_room_ev "g1" (joins lobby guest (JStr "bn-IN"));
    join_room_ev "r1" (joins lobby receptionist JUndefined) ].

(** Two guests and a receptionist in the lobby; then the second guest goes. *)
Definition two_guests : list input :=
  [ join_room_ev "g1" (joins lobby guest (JStr "ta-IN"));
    join_room_ev "g2" (joins lobby guest (JStr "bn-IN"));
    join_room_ev "r1" (joins lobby receptionist JUndefined) ].

Definition two_guests_one_left : list input :=
  two_guests ++ [ disconnect_ev "g2" ].

(** A text message that declares role [guest] and a language. *)
Definition as_guest : payload :=
  says lobby guest (JStr "bn-IN") (JStr "hola").

Definition desk_says : payload :=
  says lobby receptionist JUndefined (JStr "Room is ready").

Definition guest_says : payload :=
  says lobby guest JUndefined (JStr "namaste").

(** A connection that joins the room with the empty name, then room ["B"]. *)
Definition empty_then_B : list input :=
  [ join_room_ev "c1" (joins (JStr "") guest (JStr "ta-IN"));
    join_room_ev "c1" (joins (JStr "B") guest (JStr "ta-IN")) ].

Definition boom : exn := Exn (JStr "translator down") "Error: translator down".

Definition heard (t : string) (c : option Q) : settlement :=
  SttSettled (Resolved (SttResult (JStr t) c)).

Definition rendered (t : string) : settlement :=
  TrSettled (Resolved (TranslationResult (JStr t))).

(** The guest of [desk_and_guest] disconnects, or moves on to another room. *)
Definition guest_gone : list input :=
  desk_and_guest ++ [ disconnect_ev "g1" ].

Definition guest_moved : list input :=
  desk_and_guest ++ [ join_room_ev "g1" (joins (JStr "bar") guest (JStr "bn-IN")) ].

(** A guest's audio message. *)
Definition guest_speaks : payload :=
  speaks lobby guest JUndefined "UklGRg==".

(** A lobby is left empty at time 0 and joined again one second later, well
    within the five minutes of the cleanup that is pending ... *)
Definition rejoined : list input :=
  [ join_room_ev "g1" (joins lobby guest (JStr "bn-IN"));
    disconnect_ev "g1";
    elapse 1000;
    join_room_ev "g2" (joins lobby guest (JStr "ta-IN")) ].

(** ... and left empty again one second before that cleanup is due. *)
Definition rejoined_and_left : list input :=
  rejoined ++ [ elapse 298000; disconnect_ev "g2"; elapse 1000 ].

(** ** Vocabulary of the further properties *)

(** Every session names a room that exists and lists the connection. *)
Definition linked (s : store) : Prop :=
  forall id info,
    userRoles s !! id = Some info -> member (activeRooms s) (info_room info) id.

(** No member set lists a connection twice. *)
Definition distinct_members (s : store) : Prop :=
  forall r rd, activeRooms s !! r = Some rd -> NoDup (users rd).

(** The member sets after the "leave previous" step of a join. *)
Definition leave_previous (id : string) (s : store) : gmap jsval roomData :=
  let prev :=
    match userRoles s !! id with Some i => info_room i | None => JUndefined end in
  if truthy prev
  then alter (fun pd => set_users (users_delete id (users pd)) pd) prev (activeRooms s)
  else activeRooms s.

(** The room a join finds, or the one it creates. *)
Definition found_or_new (r : jsval) (now : Z) (rooms : gmap jsval roomData) : roomData :=
  default (new_room now) (rooms !! r).

(** The stores a join that is carried out leaves, for the language [lang] it
    stores in the session. *)
Definition joined (id : string) (data : payload) (now : Z) (lang : jsval) (s : store)
  : store :=
  let rd0 := found_or_new (room data) now (leave_previous id s) in
  let rd1 := set_users (users_add id (users rd0)) rd0 in
  let rd :=
    if strict_eq (role data) (JStr "guest") then set_guestLanguage lang rd1 else rd1 in
  Store (<[ room data := rd ]> (leave_previous id s))
    (<[ id := UserInfo (room data) (role data) lang ]> (userRoles s)).

(** The events of the event loop in which every join names a truthy room. *)
Definition names_a_room (i : input) : Prop :=
  match i with
  | join_room_ev _ data => truthy (room data) = true
  | _ => True
  end.

(** The worlds the server reaches by events that all satisfy [ok]. *)
Inductive reachable_by (srv : Server) (ok : input -> Prop) : world -> Prop :=
  | reachable_by_init : reachable_by srv ok init
  | reachable_by_step i w w' :
      reachable_by srv ok w -> ok i -> step srv i w = Some w' -> reachable_by srv ok w'.

(** How many actions of a run satisfy [f]. *)
Fixpoint count (f : action -> bool) (acts : list action) : nat :=
  match acts with
  | [] => 0
  | a :: rest => (if f a then 1 else 0) + count f rest
  end.

Definition calls_transcribe (a : action) : bool :=
  match a with CalledTranscribe _ _ => true | _ => false end.

(** The language given to the transcription collaborator, when it is
    called. *)
Fixpoint transcription_language (acts : list action) : option jsval :=
  match acts with
  | [] => None
  | CalledTranscribe _ lang :: _ => Some lang
  | _ :: rest => transcription_language rest
  end.

(** The sockets a run addresses privately. *)
Fixpoint private_targets (acts : list action) : list string :=
  match acts with
  | [] => []
  | Emitted (ToSocket id) _ :: rest => id :: private_targets rest
  | _ :: rest => private_targets rest
  end.

(** The [room_stats] broadcasts among some actions: the room addressed and
    the [userCount], [hotelName] and [guestLanguage] reported. *)
Fixpoint room_stats_of (acts : list action) : list (jsval * nat * jsval * jsval) :=
  match acts with
  | [] => []
  | Emitted (ToRoom r) (room_stats n h g) :: rest => (r, n, h, g) :: room_stats_of rest
  | _ :: rest => room_stats_of rest
  end.


(** Every session has a truthy room, role and language. *)
Definition sessions_complete (s : store) : Prop :=
  forall id info,
    userRoles s !! id = Some info ->
    truthy (info_room info) = true /\
    truthy (info_role info) = true /\
    truthy (info_language info) = true.

(** The routes of the two builds. *)
Definition generate_room (b : build)
  : request -> Z -> Z -> string -> store -> store * room_response :=
  match b with
  | server_js => ServerJs.generate_room
  | part_000 => Part000.generate_room
  end.

Definition health (b : build) : environment -> health_report :=
  match b with
  | server_js => ServerJs.health
  | part_000 => Part000.health
  end.

Definition languageNames (b : build) : string -> option string :=
  match b with
  | server_js => ServerJs.languageNames
  | part_000 => Part000.languageNames
  end.

(** A [get_room_info] request for the room [r]. *)
Definition asks_for (r : string) : payload :=
  Payload (JStr r) JUndefined JUndefined JUndefined JUndefined.

(** A text without the character [_]. *)
Definition without_underscore (s : string) : Prop :=
  forall n, String.get n s <> Some "_"%char.

(** * Properties *)

(** ** Values and guards *)

Lemma strict_eq_true a b : strict_eq a b = true <-> a = b.
Proof. unfold strict_eq. apply bool_decide_eq_true. Qed.

Lemma strict_eq_false a b : strict_eq a b = false <-> a <> b.
Proof. unfold strict_eq. apply bool_decide_eq_false. Qed.

Lemma strict_eq_refl a : strict_eq a a = true.
Proof. by apply strict_eq_true. Qed.

Example trim_both_ends : trim "  Room is ready " = "Room is ready".
Proof. reflexivity. Qed.

Example trim_blank : trim (String (ascii_of_nat 9) (String (ascii_of_nat 160) " ")) = "".
Proof. reflexivity. Qed.

(** A blank transcript is falsy once trimmed, and the other way round. *)
Lemma absent_or_blank_falsy t : absent_or_blank t <-> truthy (js_trim t) = false.
Proof.
  destruct t as [| |s]; simpl; try tauto.
  destruct (String.eqb_spec (trim s) ""); simpl; split; congruence.
Qed.

(** The guard of [src/server.js] on the transcript. *)
Lemma server_js_guard t :
  negb (truthy t) || negb (truthy (js_trim t)) = negb (truthy (js_trim t)).
Proof.
  destruct t as [| |s]; simpl; try reflexivity.
  destruct (String.eqb_spec s "") as [->|]; reflexivity.
Qed.

(** The guard of the sibling build. *)
Lemma part_000_guard t :
  truthy (js_trim (js_or t (JStr ""))) = truthy (js_trim t).
Proof.
  destruct t as [| |s]; try reflexivity.
  unfold js_or. simpl. destruct (String.eqb_spec s "") as [->|]; reflexivity.
Qed.

Lemma length_zero_nil {A} (l : list A) : (length l =? 0)%nat = true <-> l = [].
Proof. destruct l; simpl; split; congruence. Qed.

(** ** How the event loop runs the handlers *)

(** Up to its first suspension point a handler does what the event loop
    logs for it. *)
Lemma run_until_suspended p s : run p s [] = (advance p s).1.
Proof.
  induction p as [|e|t ev k IH|k IH|a l k IH|x src tgt k IH]; simpl; try reflexivity.
  - rewrite IH. by destruct (advance k s).
  - apply IH.
Qed.

(** A handler that the event loop parked at a transcription goes on, once
    the call has settled, as its continuation does on the stores of that
    moment. *)
Lemma run_resume_transcribe p s acts a l k o s' rest :
  advance p s = (acts, Some (AwaitTranscribe a l k)) ->
  run p s ((SttSettled o, s') :: rest) = acts ++ run (k o) s' rest.
Proof.
  revert acts.
  induction p as [|e|t ev p IH|p IH|a0 l0 k0 _|x src tgt k0 _]; simpl; intros acts Hadv;
    try discriminate.
  - destruct (advance p s) as [acts0 q] eqn:Hp. simplify_eq. simpl. by rewrite (IH acts0).
  - by apply IH.
  - by simplify_eq.
Qed.

(** The same for a handler parked at a translation. *)
Lemma run_resume_translate p s acts x src tgt k o s' rest :
  advance p s = (acts, Some (AwaitTranslate x src tgt k)) ->
  run p s ((TrSettled o, s') :: rest) = acts ++ run (k o) s' rest.
Proof.
  revert acts.
  induction p as [|e|t ev p IH|p IH|a0 l0 k0 _|x0 src0 tgt0 k0 _]; simpl; intros acts Hadv;
    try discriminate.
  - destruct (advance p s) as [acts0 q] eqn:Hp. simplify_eq. simpl. by rewrite (IH acts0).
  - by apply IH.
  - by simplify_eq.
Qed.

(** A parked handler is parked at a collaborator call. *)
Lemma advance_parks_at_call p s acts q :
  advance p s = (acts, Some q) ->
  (exists a l k, q = AwaitTranscribe a l k) \/ (exists x src tgt k, q = AwaitTranslate x src tgt k).
Proof.
  revert acts.
  induction p as [|e|t ev p IH|p IH|a0 l0 k0 _|x0 src0 tgt0 k0 _]; simpl; intros acts Hadv;
    try discriminate.
  - destruct (advance p s) as [acts0 q0] eqn:Hp. simplify_eq. by eapply IH.
  - by eapply IH.
  - simplify_eq. left. eauto.
  - simplify_eq. right. eauto.
Qed.

Lemma step_message srv k id data w :
  step srv (message_ev k id data) w = Some (spawn (on_message srv k id data) w (tasks w)).
Proof. destruct k; reflexivity. Qed.

Lemma spawn_stores p w others : stores (spawn p w others) = stores w.
Proof. unfold spawn. by destruct (advance p (stores w)). Qed.

Lemma step_disconnect b id w :
  step (handlers b) (disconnect_ev id) w =
    match userRoles (stores w) !! id with
    | None => Some (World (stores w) (clock w) (timers w ++ []) (tasks w) (log w ++ []))
    | Some info =>
        match activeRooms (stores w) !! info_room info with
        | None =>
            Some (World (Store (activeRooms (stores w)) (delete id (userRoles (stores w))))
                    (clock w) (timers w ++ []) (tasks w) (log w ++ []))
        | Some rd0 =>
            let rd1 := set_users (users_delete id (users rd0)) rd0 in
            let rd :=
              if strict_eq (info_role info) (JStr "guest")
              then set_guestLanguage JNull rd1 else rd1 in
            Some (World
                    (Store (<[ info_room info := rd ]> (activeRooms (stores w)))
                       (delete id (userRoles (stores w))))
                    (clock w)
                    (timers w ++
                       if (length (users rd) =? 0)%nat
                       then [ ((clock w + 5 * 60 * 1000)%Z, info_room info) ] else [])
                    (tasks w)
                    (log w ++
                       [ Emitted (ToOthers id (info_room info)) (user_left (info_role info) id);
                         Emitted (ToRoom (info_room info))
                           (room_stats (length (users rd)) (hotelName rd)
                              (guestLanguage rd)) ]))
        end
    end.
Proof.
  destruct b; simpl; unfold ServerJs.disconnect, Part000.disconnect;
    destruct (userRoles (stores w) !! id) as [info|]; try reflexivity;
    destruct (activeRooms (stores w) !! info_room info); reflexivity.
Qed.

Lemma step_timer b n w :
  step (handlers b) (timer_fired n) w =
    match timers w !! n with
    | Some (due, r) =>
        if (due <=? clock w)%Z
        then Some (World
                     (match activeRooms (stores w) !! r with
                      | Some rd =>
                          if (length (users rd) =? 0)%nat
                          then Store (delete r (activeRooms (stores w)))
                                 (userRoles (stores w))
                          else stores w
                      | None => stores w
                      end)
                     (clock w) (delete n (timers w)) (tasks w) (log w))
        else None
    | None => None
    end.
Proof. destruct b; reflexivity. Qed.

(** ** Messages from outside the room *)

Lemma unauthorized_run b k id data s sched :
  (forall info, userRoles s !! id = Some info -> info_room info <> room data) ->
  run (on_message (handlers b) k id data) s sched =
    [Emitted (ToSocket id) (error_event "Not authorized for this room" JUndefined)].
Proof.
  intros Hno. destruct b, k; simpl;
    (destruct (userRoles s !! id) as [info|] eqn:Hs; [|reflexivity]);
    (specialize (Hno info eq_refl); apply strict_eq_false in Hno; rewrite Hno; reflexivity).
Qed.

Lemma unauthorized_advance b k id data s :
  (forall info, userRoles s !! id = Some info -> info_room info <> room data) ->
  advance (on_message (handlers b) k id data) s =
    ([Emitted (ToSocket id) (error_event "Not authorized for this room" JUndefined)], None).
Proof.
  intros Hno. destruct b, k; simpl;
    (destruct (userRoles s !! id) as [info|] eqn:Hs; [|reflexivity]);
    (specialize (Hno info eq_refl); apply strict_eq_false in Hno; rewrite Hno; reflexivity).
Qed.

(** C2. An [audio_message] or [text_message] whose sender holds no session, or
    a session for another room than the one the message declares, only gets
    the private [error] event: the event loop appends that one event for the
    sender to the log and changes neither the stores nor the timers nor the
    suspended handlers, and however the collaborators would settle, the
    handler does nothing else, so nothing is broadcast to the declared
    room. *)
Theorem unauthorized_message_is_private (b : build) (k : kind) (id : string)
    (data : payload) (w : world) :
  (forall info, userRoles (stores w) !! id = Some info -> info_room info <> room data) ->
  step (handlers b) (message_ev k id data) w =
    Some (World (stores w) (clock w) (timers w) (tasks w)
            (log w ++ [Emitted (ToSocket id)
                         (error_event "Not authorized for this room" JUndefined)])) /\
  forall sched,
    run (on_message (handlers b) k id data) (stores w) sched =
      [Emitted (ToSocket id) (error_event "Not authorized for this room" JUndefined)] /\
    forallb (fun a => negb (broadcast_to (room data) a))
      (run (on_message (handlers b) k id data) (stores w) sched) = true.
Proof.
  intros Hno. split.
  - rewrite step_message. unfold spawn.
    rewrite (unauthorized_advance b k id data (stores w) Hno).
    by rewrite app_nil_r.
  - intros sched. rewrite (unauthorized_run b k id data (stores w) sched Hno).
    split; reflexivity.
Qed.

(** A stranger writes to the lobby of [src/server.js]. *)
Lemma unauthorized_message_is_private_witness :
  run (ServerJs.text_message "x9" desk_says)
    (stores (after ServerJs.server desk_only)) [] =
    [Emitted (ToSocket "x9") (error_event "Not authorized for this room" JUndefined)].
Proof.
  apply (proj2 (unauthorized_message_is_private server_js Text "x9" desk_says
                  (after ServerJs.server desk_only)
                  ltac:(intros info Hi; vm_compute in Hi; discriminate)) []).
Defined.

(** ** Transcripts without speech *)

(** C6. When the transcription of an authorized [audio_message] resolves with
    a transcript that is absent or empty once trimmed, the handler broadcasts
    [processing_status] with status [error] and the message
    [No speech detected] to the room and stops: the run consists of the
    [transcribing] status, the call to the transcription collaborator and
    that error status, so the translation collaborator is not called and no
    [translation] event is emitted. *)
Theorem empty_transcript_stops_pipeline (b : build) (id : string) (data : payload)
    (s s1 : store) (info : userInfo) (r : sttResult)
    (rest : list (settlement * store)) :
  userRoles s !! id = Some info ->
  info_room info = room data ->
  absent_or_blank (transcript r) ->
  let acts := run (on_audio_message (handlers b) id data) s
                ((SttSettled (Resolved r), s1) :: rest) in
  (exists audio lang,
     acts = [ Emitted (ToRoom (room data))
                (processing_status "transcribing" (role data) JUndefined);
              CalledTranscribe audio lang;
              Emitted (ToRoom (room data))
                (processing_status "error" JUndefined (JStr "No speech detected")) ]) /\
  existsb calls_translate acts = false /\
  existsb emits_translation acts = false.
Proof.
  intros Hs Hroom Hblank. apply absent_or_blank_falsy in Hblank.
  destruct b; simpl; rewrite Hs, Hroom, strict_eq_refl; simpl.
  - rewrite server_js_guard, Hblank. simpl. eauto.
  - rewrite part_000_guard, Hblank. simpl. eauto.
Qed.

(** A guest of the sibling build sends audio that is heard as three spaces. *)
Lemma empty_transcript_stops_pipeline_witness :
  existsb calls_translate
    (run (Part000.audio_message "g1" (speaks lobby guest JUndefined "UklGRg=="))
       (stores (after Part000.server desk_and_guest))
       [(heard "   " None, stores (after Part000.server desk_and_guest))]) = false.
Proof.
  apply (proj1 (proj2 (empty_transcript_stops_pipeline part_000 "g1"
                         (speaks lobby guest JUndefined "UklGRg==")
                         (stores (after Part000.server desk_and_guest))
                         (stores (after Part000.server desk_and_guest))
                         (UserInfo lobby guest (JStr "bn-IN"))
                         (SttResult (JStr "   ") None) []
                         ltac:(vm_compute; reflexivity) ltac:(reflexivity)
                         ltac:(reflexivity)))).
Defined.

(** ** The translation direction *)

Lemma first_guest_language_none roles us :
  no_guest_among roles us ->
  ServerJs.first_guest_language roles us = JStr "hi-IN".
Proof.
  induction us as [|u us IH]; intros Hno; simpl; [reflexivity|].
  assert (no_guest_among roles us) as Hrest.
  { intros v j Hv. apply Hno. by right. }
  destruct (roles !! u) as [i|] eqn:Hu; [|by apply IH].
  assert (info_role i <> JStr "guest") as Hi by (eapply Hno; [left|done]).
  apply strict_eq_false in Hi. rewrite Hi. by apply IH.
Qed.

Lemma first_guest_language_first roles pre u post i :
  no_guest_among roles pre ->
  roles !! u = Some i ->
  info_role i = JStr "guest" ->
  ServerJs.first_guest_language roles (pre ++ u :: post) =
    js_or (info_language i) (JStr "hi-IN").
Proof.
  intros Hpre Hu Hi. induction pre as [|v pre IH]; simpl.
  - rewrite Hu, Hi, strict_eq_refl. reflexivity.
  - assert (no_guest_among roles pre) as Hrest.
    { intros x j Hx. apply Hpre. by right. }
    destruct (roles !! v) as [j|] eqn:Hv; [|by apply IH].
    assert (info_role j <> JStr "guest") as Hj by (eapply Hpre; [left|done]).
    apply strict_eq_false in Hj. rewrite Hj. by apply IH.
Qed.

Lemma text_direction b id data s info sched :
  userRoles s !! id = Some info ->
  info_room info = room data ->
  role data <> JStr "guest" ->
  resolved_direction (run (on_text_message (handlers b) id data) s sched) =
    Some (JStr "en-US", getGuestLanguageInRoom b (room data) s).
Proof.
  intros Hs Hroom Hrole. apply strict_eq_false in Hrole.
  destruct b; simpl; unfold ServerJs.direction;
    rewrite Hs, Hroom, strict_eq_refl, Hrole; reflexivity.
Qed.

Lemma audio_direction b id data s info r s1 rest :
  userRoles s !! id = Some info ->
  info_room info = room data ->
  role data <> JStr "guest" ->
  ~ absent_or_blank (transcript r) ->
  resolved_direction
    (run (on_audio_message (handlers b) id data) s ((SttSettled (Resolved r), s1) :: rest)) =
    Some (JStr "en-US", getGuestLanguageInRoom b (room data) s1).
Proof.
  intros Hs Hroom Hrole Hspeech. apply strict_eq_false in Hrole.
  rewrite absent_or_blank_falsy in Hspeech. apply not_false_is_true in Hspeech.
  destruct b; simpl; unfold ServerJs.direction;
    rewrite Hs, Hroom, strict_eq_refl; simpl.
  - rewrite server_js_guard, Hspeech. simpl. rewrite Hrole. reflexivity.
  - rewrite part_000_guard, Hspeech. simpl. rewrite Hrole. reflexivity.
Qed.

(** C1 does not hold as it is stated. In both builds a connection whose
    session role is [receptionist] and that sends a text message declaring
    role [guest] and language [bn-IN] gets the direction [bn-IN] to
    [en-US]: the handlers look at the role the message declares, not at the
    session. And in [src/server.js], with two guests in the lobby of which
    the second has left, the room has no resolved guest language and yet the
    receptionist's message is translated to [ta-IN], the language of the
    guest who is still there, not to [hi-IN]. *)
Lemma direction_follows_declared_role :
  (userRoles (stores (after ServerJs.server desk_only)) !! "r1" =
     Some (UserInfo lobby receptionist (JStr "en-US")) /\
   resolved_direction
     (run (ServerJs.text_message "r1" as_guest)
        (stores (after ServerJs.server desk_only)) []) =
     Some (JStr "bn-IN", JStr "en-US")) /\
  (userRoles (stores (after Part000.server desk_only)) !! "r1" =
     Some (UserInfo lobby receptionist (JStr "en-US")) /\
   resolved_direction
     (run (Part000.text_message "r1" as_guest)
        (stores (after Part000.server desk_only)) []) =
     Some (JStr "bn-IN", JStr "en-US")) /\
  (userRoles (stores (after ServerJs.server two_guests_one_left)) !! "r1" =
     Some (UserInfo lobby receptionist (JStr "en-US")) /\
   guestLanguage <$> activeRooms (stores (after ServerJs.server two_guests_one_left)) !! lobby =
     Some JNull /\
   resolved_direction
     (run (ServerJs.text_message "r1" desk_says)
        (stores (after ServerJs.server two_guests_one_left)) []) =
     Some (JStr "en-US", JStr "ta-IN") /\
   JStr "ta-IN" <> JStr "hi-IN").
Proof.
  repeat split; try (vm_compute; reflexivity). discriminate.
Qed.

(** C1, amended. For every message of a sender whose session names the
    declared room and whose declared role is not [guest], the source language
    is [en-US] whatever language the message gives, and the target is
    [getGuestLanguageInRoom] of the declared room, read when the direction is
    resolved: at once for a text message, after the transcription for an
    audio message. That target is [hi-IN] when the room does not exist, the
    room's resolved guest language when that is truthy, and otherwise
    [hi-IN] in the sibling build; in [src/server.js] it is then the stored
    language ([hi-IN] if that is falsy) of the first member in join order
    whose session has role [guest], and [hi-IN] when no member has. *)
Theorem staff_direction (b : build) (id : string) (data : payload) (s : store)
    (info : userInfo) :
  userRoles s !! id = Some info ->
  info_room info = room data ->
  role data <> JStr "guest" ->
  (forall sched,
     resolved_direction (run (on_text_message (handlers b) id data) s sched) =
       Some (JStr "en-US", getGuestLanguageInRoom b (room data) s)) /\
  (forall r s1 rest,
     ~ absent_or_blank (transcript r) ->
     resolved_direction
       (run (on_audio_message (handlers b) id data) s
          ((SttSettled (Resolved r), s1) :: rest)) =
       Some (JStr "en-US", getGuestLanguageInRoom b (room data) s1)) /\
  (forall s',
     (activeRooms s' !! room data = None ->
      getGuestLanguageInRoom b (room data) s' = JStr "hi-IN") /\
     (forall rd,
        activeRooms s' !! room data = Some rd ->
        (truthy (guestLanguage rd) = true ->
         getGuestLanguageInRoom b (room data) s' = guestLanguage rd) /\
        (truthy (guestLanguage rd) = false ->
         match b with
         | part_000 => getGuestLanguageInRoom b (room data) s' = JStr "hi-IN"
         | server_js =>
             (no_guest_among (userRoles s') (users rd) ->
              getGuestLanguageInRoom b (room data) s' = JStr "hi-IN") /\
             (forall pre u post i,
                users rd = pre ++ u :: post ->
                no_guest_among (userRoles s') pre ->
                userRoles s' !! u = Some i ->
                info_role i = JStr "guest" ->
                getGuestLanguageInRoom b (room data) s' =
                  js_or (info_language i) (JStr "hi-IN"))
         end))).
Proof.
  intros Hs Hroom Hrole. split; [|split].
  - intros sched. by eapply text_direction.
  - intros r s1 rest Hspeech. by eapply audio_direction.
  - intros s'. split.
    + intros Hnone. destruct b; simpl;
        unfold ServerJs.getGuestLanguageInRoom, Part000.getGuestLanguageInRoom;
        rewrite Hnone; reflexivity.
    + intros rd Hrd. split.
      * intros Ht. destruct b; simpl;
          unfold ServerJs.getGuestLanguageInRoom, Part000.getGuestLanguageInRoom, js_or;
          rewrite Hrd, Ht; reflexivity.
      * intros Hf. destruct b; simpl;
          unfold ServerJs.getGuestLanguageInRoom, Part000.getGuestLanguageInRoom, js_or;
          rewrite Hrd, Hf; [|reflexivity].
        split.
        -- apply first_guest_language_none.
        -- intros pre u post i -> Hpre Hu Hi. by apply first_guest_language_first.
Qed.

(** The receptionist of [src/server.js] writes to a Bengali-speaking guest. *)
Lemma staff_direction_witness :
  resolved_direction
    (run (ServerJs.text_message "r1" desk_says)
       (stores (after ServerJs.server desk_and_guest)) []) =
    Some (JStr "en-US", JStr "bn-IN").
Proof.
  apply (proj1 (staff_direction server_js "r1" desk_says
                  (stores (after ServerJs.server desk_and_guest))
                  (UserInfo lobby receptionist (JStr "en-US"))
                  ltac:(vm_compute; reflexivity) ltac:(reflexivity)
                  ltac:(discriminate)) []).
Defined.

(** ** The language stored on join *)

(** C5 does not hold as it is stated. A join with role [admin] and language
    [fr-FR] stores [fr-FR] in both builds, and in the sibling build so does
    a join with role [receptionist]; neither is normalized to [en-US]. A
    guest who joins with language [null] has [null] stored by
    [src/server.js] and [hi-IN] by the sibling build. *)
Lemma join_keeps_requested_language :
  info_language <$>
    userRoles (fst (ServerJs.join_room "a1" (joins lobby (JStr "admin") (JStr "fr-FR")) 0
                      (stores init))) !! "a1" = Some (JStr "fr-FR") /\
  info_language <$>
    userRoles (fst (Part000.join_room "a1" (joins lobby (JStr "admin") (JStr "fr-FR")) 0
                      (stores init))) !! "a1" = Some (JStr "fr-FR") /\
  info_language <$>
    userRoles (fst (Part000.join_room "r1" (joins lobby receptionist (JStr "fr-FR")) 0
                      (stores init))) !! "r1" = Some (JStr "fr-FR") /\
  info_language <$>
    userRoles (fst (ServerJs.join_room "g1" (joins lobby guest JNull) 0
                      (stores init))) !! "g1" = Some JNull /\
  info_language <$>
    userRoles (fst (Part000.join_room "g1" (joins lobby guest JNull) 0
                      (stores init))) !! "g1" = Some (JStr "hi-IN") /\
  JStr "fr-FR" <> JStr "en-US" /\ JNull <> JStr "hi-IN".
Proof.
  repeat split; try (vm_compute; reflexivity); discriminate.
Qed.

(** C5, amended. On [join_room], [src/server.js] stores [en-US] for the role
    [receptionist] whatever language is requested, and for every other role
    the requested language when the event carries one (anything but
    [undefined]), else [hi-IN]. The sibling build stores nothing when the
    room or the role is falsy; otherwise it stores the requested language
    when that is truthy, for every role, and else [en-US] for
    [receptionist] and [hi-IN] for every other role. *)
Theorem join_effective_language (b : build) (id : string) (data : payload) (now : Z)
    (s : store) :
  let s' := fst (on_join_room (handlers b) id data now s) in
  match b with
  | server_js =>
      exists lang,
        userRoles s' !! id = Some (UserInfo (room data) (role data) lang) /\
        (role data = JStr "receptionist" -> lang = JStr "en-US") /\
        (role data <> JStr "receptionist" -> language data <> JUndefined ->
         lang = language data) /\
        (role data <> JStr "receptionist" -> language data = JUndefined ->
         lang = JStr "hi-IN")
  | part_000 =>
      (truthy (room data) = false \/ truthy (role data) = false -> s' = s) /\
      (truthy (room data) = true -> truthy (role data) = true ->
       exists lang,
         userRoles s' !! id = Some (UserInfo (room data) (role data) lang) /\
         (truthy (language data) = true -> lang = language data) /\
         (truthy (language data) = false -> role data = JStr "receptionist" ->
          lang = JStr "en-US") /\
         (truthy (language data) = false -> role data <> JStr "receptionist" ->
          lang = JStr "hi-IN"))
  end.
Proof.
  destruct b; simpl.
  - eexists. split; [apply lookup_insert_eq|]. split; [|split].
    + intros ->. reflexivity.
    + intros Hr Hl. apply strict_eq_false in Hr. rewrite Hr.
      by destruct (language data).
    + intros Hr Hl. apply strict_eq_false in Hr. rewrite Hr, Hl. reflexivity.
  - unfold Part000.join_room. split.
    + intros [-> | ->]; simpl; [reflexivity|]. by rewrite orb_true_r.
    + intros -> ->. simpl. eexists. split; [apply lookup_insert_eq|].
      unfold js_or. split; [|split].
      * intros ->. by destruct (strict_eq _ _).
      * intros -> ->. reflexivity.
      * intros -> Hr. apply strict_eq_false in Hr. rewrite Hr. reflexivity.
Qed.

(** A guest joins the sibling build without a language. *)
Lemma join_effective_language_witness :
  userRoles (fst (Part000.join_room "g1" (joins lobby guest JUndefined) 0 (stores init)))
    !! "g1" = Some (UserInfo lobby guest (JStr "hi-IN")).
Proof.
  destruct (proj2 (join_effective_language part_000 "g1" (joins lobby guest JUndefined) 0
                     (stores init)) eq_refl eq_refl)
    as (lang & Hsession & _ & _ & Hdefault).
  rewrite (Hdefault eq_refl ltac:(discriminate)) in Hsession. exact Hsession.
Defined.

(** ** A guest leaves *)

(** C4 does not hold as it is stated. In [src/server.js], once the second of
    two guests in the lobby has disconnected, the room's resolved guest
    language is [null], but the receptionist's next message is translated to
    [ta-IN], the language of the guest who stayed. *)
Lemma remaining_guest_keeps_target :
  userRoles (stores (after ServerJs.server two_guests)) !! "g2" =
    Some (UserInfo lobby guest (JStr "bn-IN")) /\
  step ServerJs.server (disconnect_ev "g2") (after ServerJs.server two_guests) =
    Some (after ServerJs.server two_guests_one_left) /\
  guestLanguage <$> activeRooms (stores (after ServerJs.server two_guests_one_left)) !! lobby =
    Some JNull /\
  resolved_direction
    (run (ServerJs.text_message "r1" desk_says)
       (stores (after ServerJs.server two_guests_one_left)) []) =
    Some (JStr "en-US", JStr "ta-IN") /\
  JStr "ta-IN" <> JStr "hi-IN".
Proof.
  repeat split; try (vm_compute; reflexivity). discriminate.
Qed.

(** C4, amended. When a connection whose session role is [guest] disconnects
    from a room that exists, the room's resolved guest language becomes
    [null]. As long as the room has no resolved guest language when the
    direction is resolved (at once for a text message, after the
    transcription for an audio message with speech), as it has right after
    that disconnect, every message for the room by a sender authorized for it
    and with a declared role other than [guest] goes from [en-US] to [hi-IN]
    in the sibling build. In [src/server.js] it goes to [hi-IN] when the room
    is gone or no member of it holds a [guest] session, and otherwise to the
    stored language of the first member in join order who does, or to
    [hi-IN] when that language is falsy. *)
Theorem guest_disconnect_resets_target (b : build) (id : string) (w : world)
    (info : userInfo) (rd : roomData) :
  userRoles (stores w) !! id = Some info ->
  info_role info = JStr "guest" ->
  activeRooms (stores w) !! info_room info = Some rd ->
  exists w' rd',
    step (handlers b) (disconnect_ev id) w = Some w' /\
    activeRooms (stores w') !! info_room info = Some rd' /\
    guestLanguage rd' = JNull /\
    users rd' = users_delete id (users rd) /\
    userRoles (stores w') = delete id (userRoles (stores w)) /\
    no_resolved_guest_language (info_room info) (stores w') /\
    forall sender data s1,
      room data = info_room info ->
      role data <> JStr "guest" ->
      no_resolved_guest_language (room data) s1 ->
      (forall sched,
         authorized sender data s1 ->
         resolved_direction (run (on_text_message (handlers b) sender data) s1 sched) =
           Some (JStr "en-US", getGuestLanguageInRoom b (room data) s1)) /\
      (forall s r rest,
         authorized sender data s ->
         ~ absent_or_blank (transcript r) ->
         resolved_direction
           (run (on_audio_message (handlers b) sender data) s
              ((SttSettled (Resolved r), s1) :: rest)) =
           Some (JStr "en-US", getGuestLanguageInRoom b (room data) s1)) /\
      match b with
      | part_000 => getGuestLanguageInRoom b (room data) s1 = JStr "hi-IN"
      | server_js =>
          (activeRooms s1 !! room data = None ->
           getGuestLanguageInRoom b (room data) s1 = JStr "hi-IN") /\
          (forall rd1,
             activeRooms s1 !! room data = Some rd1 ->
             (no_guest_among (userRoles s1) (users rd1) ->
              getGuestLanguageInRoom b (room data) s1 = JStr "hi-IN") /\
             (forall pre u post i,
                users rd1 = pre ++ u :: post ->
                no_guest_among (userRoles s1) pre ->
                userRoles s1 !! u = Some i ->
                info_role i = JStr "guest" ->
                getGuestLanguageInRoom b (room data) s1 =
                  js_or (info_language i) (JStr "hi-IN")))
      end.
Proof.
  intros Hs Hrole Hrd. rewrite step_disconnect, Hs, Hrd, Hrole, strict_eq_refl.
  eexists. eexists. split; [reflexivity|]. simpl.
  split; [apply lookup_insert_eq|]. do 3 (split; [reflexivity|]).
  split.
  { unfold no_resolved_guest_language. simpl. by rewrite lookup_insert_eq. }
  intros sender data s1 Hroom Hstaff Hquiet. split; [|split].
  - intros sched (sinfo & Hsender & Hsroom). by eapply text_direction.
  - intros s r rest (sinfo & Hsender & Hsroom) Hspeech. by eapply audio_direction.
  - unfold no_resolved_guest_language in Hquiet.
    destruct b; simpl;
      unfold ServerJs.getGuestLanguageInRoom, Part000.getGuestLanguageInRoom, js_or.
    + split.
      * intros ->. reflexivity.
      * intros rd1 Hrd1. rewrite Hrd1 in Hquiet |- *. rewrite Hquiet. split.
        -- apply first_guest_language_none.
        -- intros pre u post i -> Hpre Hu Hi. by apply first_guest_language_first.
    + destruct (activeRooms s1 !! room data) as [rd1|]; [|reflexivity].
      by rewrite Hquiet.
Qed.

(** The only guest of a lobby of the sibling build leaves, and the
    receptionist speaks. *)
Lemma guest_disconnect_resets_target_witness :
  exists w',
    step Part000.server (disconnect_ev "g1") (after Part000.server desk_and_guest) = Some w' /\
    guestLanguage <$> activeRooms (stores w') !! lobby = Some JNull /\
    resolved_direction
      (run (Part000.audio_message "r1" (speaks lobby receptionist JUndefined "UklGRg=="))
         (stores w') [(heard "Room is ready" None, stores w')]) =
      Some (JStr "en-US", JStr "hi-IN").
Proof.
  destruct (guest_disconnect_resets_target part_000 "g1"
              (after Part000.server desk_and_guest)
              (UserInfo lobby guest (JStr "bn-IN"))
              (RoomData (JStr "Unknown Hotel") 0 ["g1"; "r1"] (JStr "bn-IN"))
              ltac:(vm_compute; reflexivity) ltac:(reflexivity)
              ltac:(vm_compute; reflexivity))
    as (w' & rd' & Hstep & Hroom & Hnull & _ & Hroles & Hquiet & Hmsg).
  exists w'. split; [exact Hstep|]. simpl in Hroom.
  split; [rewrite Hroom; simpl; by rewrite Hnull|].
  destruct (Hmsg "r1" (speaks lobby receptionist JUndefined "UklGRg==") (stores w')
              eq_refl ltac:(discriminate) Hquiet) as (_ & Haudio & Htgt).
  simpl in Htgt. rewrite <- Htgt. apply (Haudio (stores w')).
  - exists (UserInfo lobby receptionist (JStr "en-US")). split; [|reflexivity].
    rewrite Hroles. vm_compute. reflexivity.
  - simpl. discriminate.
Defined.

(** ** Rooms outlive client events *)

Lemma leave_previous_keeps_rooms (prev : jsval) id (rooms : gmap jsval roomData) r :
  is_Some (rooms !! r) ->
  is_Some ((if truthy prev
            then alter (fun pd => set_users (users_delete id (users pd)) pd) prev rooms
            else rooms) !! r).
Proof.
  intros Hr. destruct (truthy prev); [|done]. by apply lookup_alter_is_Some.
Qed.

Lemma get_or_create_keeps_rooms (room : jsval) now rd (rooms : gmap jsval roomData) r :
  is_Some (rooms !! r) ->
  is_Some (<[ room := rd ]>
             (match rooms !! room with
              | Some _ => rooms
              | None => <[ room := new_room now ]> rooms
              end) !! r).
Proof.
  intros Hr. apply lookup_insert_is_Some.
  destruct (decide (room = r)) as [|Hne]; [by left|right]. split; [done|].
  destruct (rooms !! room); [done|]. apply lookup_insert_is_Some. by right.
Qed.

Lemma join_keeps_rooms b id data now s r :
  is_Some (activeRooms s !! r) ->
  is_Some (activeRooms (fst (on_join_room (handlers b) id data now s)) !! r).
Proof.
  intros Hr. destruct b; simpl.
  - unfold ServerJs.join_room. simpl.
    by apply get_or_create_keeps_rooms, leave_previous_keeps_rooms.
  - unfold Part000.join_room.
    destruct (negb (truthy (room data)) || negb (truthy (role data))); [done|]. simpl.
    by apply get_or_create_keeps_rooms, leave_previous_keeps_rooms.
Qed.

Lemma client_events_keep_rooms b i w w' r :
  (forall n, i <> timer_fired n) ->
  step (handlers b) i w = Some w' ->
  is_Some (activeRooms (stores w) !! r) ->
  is_Some (activeRooms (stores w') !! r).
Proof.
  intros Hi Hstep Hr. destruct i as [id data|id data|id data|id data|id|n o|n|ms].
  - simpl in Hstep.
    pose proof (join_keeps_rooms b id data (clock w) (stores w) r Hr) as Hj.
    destruct (on_join_room (handlers b) id data (clock w) (stores w)) as [s acts].
    by simplify_eq.
  - simpl in Hstep. simplify_eq. by rewrite spawn_stores.
  - simpl in Hstep. simplify_eq. by rewrite spawn_stores.
  - simpl in Hstep. by simplify_eq.
  - rewrite step_disconnect in Hstep.
    destruct (userRoles (stores w) !! id) as [info|]; [|by simplify_eq].
    destruct (activeRooms (stores w) !! info_room info) eqn:Hrd;
      cbv zeta in Hstep; simplify_eq; simpl; [|done].
    apply lookup_insert_is_Some.
    destruct (decide (info_room info = r)); [by left|by right].
  - simpl in Hstep.
    destruct (tasks w !! n) as [[]|], o; simplify_eq; by rewrite spawn_stores.
  - by destruct (Hi n).
  - simpl in Hstep. destruct (0 <=? ms)%Z; by simplify_eq.
Qed.

(** ** Terminal status events *)

(** C8. The room of a message whose processing fails does not always see a
    terminal status. In both builds the guest of the lobby, authorized for
    it, sends a message and a collaborator call fails. When the guest has
    disconnected in the meantime, the lobby sees [translating] (for audio,
    [transcribing]) and nothing after it; when the guest has moved on to room
    [bar] in the meantime, the lobby again sees [translating] only and the
    [error] status goes to [bar]. Only when the guest is still in the lobby
    does the attempt end with [error] for the lobby. The handlers address the
    status of a failure to the room of the sender's session at the time of
    the failure, not to the room of the message. *)
Theorem failure_status_misses_the_room (b : build) :
  let s := stores (after (handlers b) desk_and_guest) in
  let gone := stores (after (handlers b) guest_gone) in
  let moved := stores (after (handlers b) guest_moved) in
  let text s1 :=
    run (on_text_message (handlers b) "g1" guest_says) s
      [(TrSettled (Rejected boom), s1)] in
  let audio s1 :=
    run (on_audio_message (handlers b) "g1" guest_speaks) s
      [(SttSettled (Rejected boom), s1)] in
  authorized "g1" guest_says s /\
  authorized "g1" guest_speaks s /\
  statuses_to lobby (text gone) = ["translating"] /\
  statuses_to lobby (audio gone) = ["transcribing"] /\
  statuses_to lobby (text moved) = ["translating"] /\
  statuses_to (JStr "bar") (text moved) = ["error"] /\
  last_status lobby (text s) = Some "error" /\
  last_status lobby (audio s) = Some "error".
Proof.
  destruct b; cbv zeta.
  all: split; [eexists; split; [vm_compute; reflexivity|reflexivity]|].
  all: split; [eexists; split; [vm_compute; reflexivity|reflexivity]|].
  all: repeat (split; [vm_compute; reflexivity|]).
  all: vm_compute; reflexivity.
Qed.

(** ** Confidence *)

Lemma text_confidence b id data s info t s2 :
  userRoles s !! id = Some info ->
  info_room info = room data ->
  confidences (run (on_text_message (handlers b) id data) s
                 [(TrSettled (Resolved t), s2)]) = [1.0%Q].
Proof.
  intros Hs Hroom.
  destruct b; simpl; unfold ServerJs.direction;
    rewrite Hs, Hroom, strict_eq_refl; simpl;
    destruct (strict_eq (role data) (JStr "guest")); reflexivity.
Qed.

Lemma audio_confidence b id data s info r s1 t s2 :
  userRoles s !! id = Some info ->
  info_room info = room data ->
  has_speech (transcript r) = true ->
  confidences (run (on_audio_message (handlers b) id data) s
                 [(SttSettled (Resolved r), s1); (TrSettled (Resolved t), s2)]) =
    [match b with
     | server_js => default 0.95%Q (confidence r)
     | part_000 => Part000.confidence_or_default (confidence r)
     end].
Proof.
  intros Hs Hroom Hsp. unfold has_speech in Hsp.
  destruct b; simpl; unfold ServerJs.direction;
    rewrite Hs, Hroom, strict_eq_refl; simpl;
    rewrite ?server_js_guard, ?part_000_guard, Hsp; simpl;
    destruct (strict_eq (role data) (JStr "guest")); reflexivity.
Qed.

(** Away from zero the sibling build reports the confidence it was given. *)
Lemma confidence_or_default_nonzero q :
  ~ (q == 0)%Q -> Part000.confidence_or_default (Some q) = q.
Proof.
  intros Hq. unfold Part000.confidence_or_default.
  destruct (Qeq_bool q 0) eqn:Hb; [|reflexivity].
  by apply Qeq_bool_eq in Hb.
Qed.

(** C9. The sibling build does not report a confidence of zero: for a
    transcription result with transcript [hello] and confidence [0] its
    [translation] event carries [0.95], where [src/server.js] carries [0]. *)
Theorem zero_confidence_is_replaced :
  let s := stores (after Part000.server desk_and_guest) in
  let data := speaks lobby guest JUndefined "UklGRg==" in
  confidences
    (run (Part000.audio_message "g1" data) s
       [(heard "hello" (Some 0%Q), s); (rendered "hola", s)]) = [0.95%Q] /\
  confidences
    (run (ServerJs.audio_message "g1" data) (stores (after ServerJs.server desk_and_guest))
       [(heard "hello" (Some 0%Q), s); (rendered "hola", s)]) = [0%Q] /\
  ~ (0.95 == 0)%Q.
Proof.
  repeat split; try (vm_compute; reflexivity). intros H. discriminate H.
Qed.

(** ** Room information *)

(** C10. A [get_room_info] request changes neither the stores nor the timers
    nor the suspended handlers. For a room that is not in [activeRooms] it
    emits nothing; for a room that is, it emits one [room_info] event to the
    requester. *)
Theorem room_info_is_read_only (b : build) (id : string) (data : payload) (w : world) :
  exists w',
    step (handlers b) (get_room_info_ev id data) w = Some w' /\
    stores w' = stores w /\
    timers w' = timers w /\
    tasks w' = tasks w /\
    (activeRooms (stores w) !! room data = None -> log w' = log w) /\
    (forall rd, activeRooms (stores w) !! room data = Some rd ->
       log w' = log w ++
         [Emitted (ToSocket id)
            (room_info (hotelName rd) (length (users rd)) (createdAt rd)
               (guestLanguage rd))]).
Proof.
  eexists. split; [reflexivity|]. simpl. repeat split.
  - intros Hnone. destruct b; simpl; unfold ServerJs.get_room_info, Part000.get_room_info;
      rewrite Hnone; apply app_nil_r.
  - intros rd Hrd. destruct b; simpl; unfold ServerJs.get_room_info, Part000.get_room_info;
      rewrite Hrd; reflexivity.
Qed.

(** A request for a room that does not exist. *)
Lemma room_info_is_read_only_witness :
  exists w',
    step ServerJs.server (get_room_info_ev "x9" (joins (JStr "nowhere") JUndefined JUndefined))
      (after ServerJs.server desk_only) = Some w' /\
    stores w' = stores (after ServerJs.server desk_only) /\
    log w' = log (after ServerJs.server desk_only).
Proof.
  destruct (room_info_is_read_only server_js "x9"
              (joins (JStr "nowhere") JUndefined JUndefined)
              (after ServerJs.server desk_only))
    as (w' & Hstep & Hstores & _ & _ & Hquiet & _).
  exists w'. split; [exact Hstep|]. split; [exact Hstores|].
  apply Hquiet. vm_compute. reflexivity.
Defined.

(** ** Member sets and sessions *)

Lemma elem_of_users_add u id us : u ∈ users_add id us <-> u = id \/ u ∈ us.
Proof.
  unfold users_add. case_bool_decide as Hin.
  - split; [by right|]. intros [->|]; done.
  - rewrite elem_of_app, list_elem_of_singleton. tauto.
Qed.

Lemma elem_of_users_delete u id us : u ∈ users_delete id us <-> u ∈ us /\ u <> id.
Proof. unfold users_delete. rewrite list_elem_of_filter. tauto. Qed.

Lemma member_leave prev id rooms r u :
  member (alter (fun pd => set_users (users_delete id (users pd)) pd) prev rooms) r u <->
  member rooms r u /\ ~ (r = prev /\ u = id).
Proof.
  unfold member. destruct (decide (prev = r)) as [->|Hne].
  - rewrite lookup_alter_eq. split.
    + intros (rd & Hrd & Hu). destruct (rooms !! r) as [rd0|] eqn:H0; [|done].
      simpl in Hrd. simplify_eq. simpl in Hu. apply elem_of_users_delete in Hu as [Hu Hid].
      split; [eauto|]. tauto.
    + intros [(rd & Hrd & Hu) Hnot]. rewrite Hrd. simpl. eexists. split; [done|].
      simpl. apply elem_of_users_delete. split; [done|]. intros ->. tauto.
  - rewrite lookup_alter_ne by done. split.
    + intros H. split; [done|]. intros [-> _]. done.
    + tauto.
Qed.

Lemma member_enter (room : jsval) id now f rooms r u :
  (forall rd, users (f rd) = users rd) ->
  let rooms2 :=
    match rooms !! room with
    | Some _ => rooms
    | None => <[ room := new_room now ]> rooms
    end in
  let rd0 := default (new_room now) (rooms2 !! room) in
  member (<[ room := f (set_users (users_add id (users rd0)) rd0) ]> rooms2) r u <->
  (r = room /\ u = id) \/ member rooms r u.
Proof.
  intros Hf rooms2 rd0. unfold member.
  destruct (decide (room = r)) as [->|Hne].
  - rewrite lookup_insert_eq. subst rd0 rooms2.
    destruct (rooms !! r) as [rd|] eqn:Hrd.
    + rewrite Hrd. simpl. split.
      * intros (rd' & ? & Hu). simplify_eq. rewrite Hf in Hu. simpl in Hu.
        apply elem_of_users_add in Hu as [->|Hu]; [by left|right; eauto].
      * intros H. eexists. split; [done|]. rewrite Hf. simpl.
        apply elem_of_users_add. destruct H as [[_ ->]|(rd' & ? & Hu)]; [by left|].
        simplify_eq. by right.
    + rewrite lookup_insert_eq. simpl. split.
      * intros (rd' & ? & Hu). simplify_eq. rewrite Hf in Hu. simpl in Hu.
        apply elem_of_users_add in Hu as [->|Hu]; [by left|]. by apply elem_of_nil in Hu.
      * intros [[_ ->]|(rd' & ? & _)]; [|done]. eexists. split; [done|].
        rewrite Hf. simpl. apply elem_of_users_add. by left.
  - rewrite lookup_insert_ne by done. subst rooms2.
    assert (match rooms !! room with
            | Some _ => rooms
            | None => <[ room := new_room now ]> rooms
            end !! r = rooms !! r) as ->.
    { destruct (rooms !! room); [done|]. by rewrite lookup_insert_ne. }
    split; [by right|]. intros [[-> _]|]; done.
Qed.

Lemma consistent_member s :
  consistent s <->
  forall r u, member (activeRooms s) r u <->
              exists info, userRoles s !! u = Some info /\ info_room info = r.
Proof. reflexivity. Qed.

Lemma users_if (c : bool) g rd :
  users (if c then set_guestLanguage g rd else rd) = users rd.
Proof. by destruct c. Qed.

(** Joining keeps the stores sound, for either build, as long as the room
    joined is truthy. *)
Lemma join_sound b id data now s :
  truthy (room data) = true ->
  sound s ->
  sound (fst (on_join_room (handlers b) id data now s)).
Proof.
  intros Hroom [Hcons Htruthy].
  set (prev := match userRoles s !! id with
               | Some i => info_room i | None => JUndefined end).
  set (rooms1 := if truthy prev
                 then alter (fun pd => set_users (users_delete id (users pd)) pd) prev
                        (activeRooms s)
                 else activeRooms s).
  assert (forall r u, member rooms1 r u <->
            u <> id /\ exists info, userRoles s !! u = Some info /\ info_room info = r)
    as Hleft.
  { intros r u. subst rooms1 prev.
    destruct (userRoles s !! id) as [i|] eqn:Hi.
    - rewrite (Htruthy id i Hi), member_leave, (Hcons r u). split.
      + intros [(info & Hu & Hr) Hnot]. split; [|eauto].
        intros ->. apply Hnot. split; [|done]. congruence.
      + intros [Hne H]. split; [done|]. tauto.
    - simpl. rewrite (Hcons r u). split.
      + intros (info & Hu & Hr). split; [|eauto]. congruence.
      + tauto. }
  assert (forall lang f, (forall rd, users (f rd) = users rd) ->
            sound (Store
              (<[ room data :=
                    f (set_users
                         (users_add id
                            (users (default (new_room now)
                               (match rooms1 !! room data with
                                | Some _ => rooms1
                                | None => <[ room data := new_room now ]> rooms1
                                end !! room data))))
                         (default (new_room now)
                            (match rooms1 !! room data with
                             | Some _ => rooms1
                             | None => <[ room data := new_room now ]> rooms1
                             end !! room data))) ]>
                 (match rooms1 !! room data with
                  | Some _ => rooms1
                  | None => <[ room data := new_room now ]> rooms1
                  end))
              (<[ id := UserInfo (room data) (role data) lang ]> (userRoles s))))
    as Hgo.
  { intros lang f Hf. split.
    - apply consistent_member. intros r u.
      simpl. rewrite (member_enter (room data) id now f rooms1 r u Hf), Hleft.
      destruct (decide (u = id)) as [->|Hne].
      + rewrite lookup_insert_eq. split.
        * intros [[-> _]|[? _]]; [eauto|done].
        * intros (info & ? & <-). simplify_eq. by left.
      + rewrite lookup_insert_ne by done. split.
        * intros [[_ ->]|[_ H]]; done.
        * intros H. right. done.
    - intros u info. simpl. destruct (decide (u = id)) as [->|Hne].
      + rewrite lookup_insert_eq. intros ?. by simplify_eq.
      + rewrite lookup_insert_ne by done. apply Htruthy. }
  destruct b; simpl.
  - unfold ServerJs.join_room. simpl. fold prev. fold rooms1.
    apply (Hgo _ (fun rd => if strict_eq (role data) (JStr "guest")
                            then set_guestLanguage _ rd else rd)).
    intros rd. apply users_if.
  - unfold Part000.join_room. rewrite Hroom. simpl.
    destruct (truthy (role data)); simpl; [|done]. fold prev. fold rooms1.
    apply (Hgo _ (fun rd => if strict_eq (role data) (JStr "guest")
                            then set_guestLanguage _ rd else rd)).
    intros rd. apply users_if.
Qed.

Lemma disconnect_sound b id w w' :
  step (handlers b) (disconnect_ev id) w = Some w' ->
  sound (stores w) ->
  sound (stores w').
Proof.
  rewrite step_disconnect. intros Hstep [Hcons Htruthy].
  destruct (userRoles (stores w) !! id) as [info|] eqn:Hi; [|by simplify_eq].
  assert (forall u i, delete id (userRoles (stores w)) !! u = Some i ->
                      truthy (info_room i) = true) as Htruthy'.
  { intros u i Hu. apply lookup_delete_Some in Hu as [_ Hu]. eauto. }
  destruct (activeRooms (stores w) !! info_room info) as [rd0|] eqn:Hrd;
    cbv zeta in Hstep; simplify_eq; simpl; (split; [|done]).
  - apply consistent_member. intros r u. simpl. unfold member.
    destruct (decide (info_room info = r)) as [<-|Hne].
    + rewrite lookup_insert_eq. split.
      * intros (rd & ? & Hu). simplify_eq. rewrite users_if in Hu. simpl in Hu.
        apply elem_of_users_delete in Hu as [Hu Hne].
        rewrite lookup_delete_ne by done. apply Hcons. eauto.
      * intros (i & Hu & Hr). apply lookup_delete_Some in Hu as [Hne Hu].
        eexists. split; [done|]. rewrite users_if. simpl.
        apply elem_of_users_delete. split; [|done].
        destruct (proj2 (Hcons (info_room info) u)) as (rd & ? & ?); [eauto|].
        by simplify_eq.
    + rewrite lookup_insert_ne by done. rewrite (Hcons r u). split.
      * intros (i & Hu & Hr). exists i. split; [|done].
        apply lookup_delete_Some. split; [|done]. intros ->. congruence.
      * intros (i & Hu & Hr). apply lookup_delete_Some in Hu as [_ Hu]. eauto.
  - apply consistent_member. intros r u. simpl.
    rewrite (proj1 (consistent_member _) Hcons r u). split.
    + intros (i & Hu & Hr). exists i. split; [|done].
      apply lookup_delete_Some. split; [|done]. intros Heq. subst u. simplify_eq.
      destruct (proj2 (Hcons (info_room info) id)) as (rd & ? & ?); [eauto|]. congruence.
    + intros (i & Hu & Hr). apply lookup_delete_Some in Hu as [_ Hu]. eauto.
Qed.

Lemma timer_sound b n w w' :
  step (handlers b) (timer_fired n) w = Some w' ->
  sound (stores w) ->
  sound (stores w').
Proof.
  rewrite step_timer. intros Hstep [Hcons Htruthy].
  destruct (timers w !! n) as [[due r]|]; [|done].
  destruct (due <=? clock w)%Z; [|done].
  destruct (activeRooms (stores w) !! r) as [rd|] eqn:Hrd; [|by simplify_eq].
  destruct (length (users rd) =? 0)%nat eqn:Hl; simplify_eq; [|done].
  apply length_zero_nil in Hl. simpl. split; [|done].
  apply consistent_member. intros r' u. simpl.
  rewrite <- (proj1 (consistent_member _) Hcons r' u). unfold member.
  destruct (decide (r = r')) as [<-|Hne].
  - rewrite lookup_delete_eq, Hrd. split.
    + intros (? & ? & _). done.
    + intros (? & ? & Hu). simplify_eq. rewrite Hl in Hu. by apply elem_of_nil in Hu.
  - by rewrite lookup_delete_ne.
Qed.

(** One step keeps the stores sound, provided a join names a truthy room. *)
Lemma step_sound b i w w' :
  (forall id data, i = join_room_ev id data -> truthy (room data) = true) ->
  step (handlers b) i w = Some w' ->
  sound (stores w) ->
  sound (stores w').
Proof.
  intros Hjoin Hstep Hsound. destruct i as [id data|id data|id data|id data|id|n o|n|ms].
  - simpl in Hstep.
    pose proof (join_sound b id data (clock w) (stores w) (Hjoin id data eq_refl) Hsound)
      as Hj.
    destruct (on_join_room (handlers b) id data (clock w) (stores w)) as [s acts].
    by simplify_eq.
  - simpl in Hstep. simplify_eq. by rewrite spawn_stores.
  - simpl in Hstep. simplify_eq. by rewrite spawn_stores.
  - simpl in Hstep. by simplify_eq.
  - by eapply disconnect_sound.
  - simpl in Hstep.
    destruct (tasks w !! n) as [[]|], o; simplify_eq; by rewrite spawn_stores.
  - by eapply timer_sound.
  - simpl in Hstep. destruct (0 <=? ms)%Z; by simplify_eq.
Qed.

Lemma part_000_rejects_falsy_room id data now s :
  truthy (room data) = false ->
  Part000.join_room id data now s =
    (s, [Emitted (ToSocket id) (error_event "Missing room/role" JUndefined)]).
Proof. intros Hr. unfold Part000.join_room. by rewrite Hr. Qed.

Lemma init_sound : sound (stores init).
Proof.
  split.
  - intros r id. simpl. split.
    + intros (rd & Hrd & _). by rewrite lookup_empty in Hrd.
    + intros (i & Hi & _). by rewrite lookup_empty in Hi.
  - intros id i. simpl. by rewrite lookup_empty.
Qed.

(** In the sibling build every reachable state has member sets that agree
    with the sessions. *)
Lemma part_000_members_consistent w :
  reachable Part000.server w -> consistent (stores w).
Proof.
  intros Hreach. cut (sound (stores w)); [by intros []|].
  induction Hreach as [|i w w' _ IH Hstep]; [apply init_sound|].
  destruct i as [id data|id data|id data|id data|id|n o|n|ms];
    try (refine (step_sound part_000 _ w w' _ Hstep IH); by intros ? ? [=]).
  destruct (truthy (room data)) eqn:Ht.
  - refine (step_sound part_000 _ w w' _ Hstep IH). by intros ? ? [= <- <-].
  - simpl in Hstep. rewrite part_000_rejects_falsy_room in Hstep by done.
    by simplify_eq.
Qed.

(** When member sets and sessions agree, a connection is in at most one
    member set. *)
Lemma consistent_one_room s r1 r2 u :
  consistent s ->
  member (activeRooms s) r1 u ->
  member (activeRooms s) r2 u ->
  r1 = r2.
Proof.
  intros Hcons H1 H2.
  apply (proj1 (consistent_member s) Hcons) in H1 as (i1 & Hi1 & <-).
  apply (proj1 (consistent_member s) Hcons) in H2 as (i2 & Hi2 & <-).
  congruence.
Qed.

(** C7. In [src/server.js] a connection that joins the room with the empty
    name and then room [B] is not taken out of the first member set: its
    session names [B], and it is a member of both rooms, so the member sets
    no longer agree with the sessions. *)
Theorem falsy_room_is_never_left :
  let s := stores (after ServerJs.server empty_then_B) in
  info_room <$> userRoles s !! "c1" = Some (JStr "B") /\
  users <$> activeRooms s !! JStr "B" = Some ["c1"] /\
  users <$> activeRooms s !! JStr "" = Some ["c1"] /\
  ~ consistent s.
Proof.
  repeat split; try (vm_compute; reflexivity).
  intros Hcons.
  assert (exists info,
            userRoles (stores (after ServerJs.server empty_then_B)) !! "c1" = Some info /\
            info_room info = JStr "") as (info & Hinfo & Hroom).
  { apply Hcons. eexists. split; [vm_compute; reflexivity|]. apply list_elem_of_here. }
  vm_compute in Hinfo. by simplify_eq.
Qed.

(** ** What a join leaves *)

Lemma insert_found_or_new (r : jsval) now rd (rooms : gmap jsval roomData) :
  <[ r := rd ]> (match rooms !! r with
                 | Some _ => rooms
                 | None => <[ r := new_room now ]> rooms
                 end) = <[ r := rd ]> rooms.
Proof. destruct (rooms !! r); [done|]. apply insert_insert_eq. Qed.

Lemma lookup_found_or_new (r : jsval) now (rooms : gmap jsval roomData) :
  default (new_room now)
    (match rooms !! r with
     | Some _ => rooms
     | None => <[ r := new_room now ]> rooms
     end !! r) = found_or_new r now rooms.
Proof.
  unfold found_or_new. destruct (rooms !! r) eqn:Hr; [by rewrite Hr|].
  by rewrite lookup_insert_eq.
Qed.

(** A join of [src/server.js] is always carried out. *)
Lemma server_js_join id data now s :
  exists lang, fst (ServerJs.join_room id data now s) = joined id data now lang s.
Proof.
  eexists. unfold ServerJs.join_room, joined. cbv zeta.
  fold (leave_previous id s). rewrite lookup_found_or_new, insert_found_or_new.
  reflexivity.
Qed.

(** A join of the sibling build is carried out when room and role are
    truthy, and then the language it stores is truthy too. *)
Lemma part_000_join id data now s :
  truthy (room data) = true ->
  truthy (role data) = true ->
  exists lang,
    truthy lang = true /\
    fst (Part000.join_room id data now s) = joined id data now lang s.
Proof.
  intros Hroom Hrole.
  exists (if strict_eq (role data) (JStr "receptionist")
          then js_or (language data) (JStr "en-US")
          else js_or (language data) (JStr "hi-IN")).
  unfold Part000.join_room, joined. cbv zeta.
  rewrite Hroom, Hrole. simpl.
  fold (leave_previous id s). rewrite lookup_found_or_new, insert_found_or_new.
  split; [|reflexivity].
  unfold js_or. destruct (strict_eq _ _), (truthy (language data)) eqn:Hl; done.
Qed.

Lemma part_000_join_rejected id data now s :
  truthy (room data) = false \/ truthy (role data) = false ->
  Part000.join_room id data now s =
    (s, [Emitted (ToSocket id) (error_event "Missing room/role" JUndefined)]).
Proof.
  intros H. unfold Part000.join_room.
  destruct H as [-> | ->]; simpl; [done|]. by rewrite orb_true_r.
Qed.

(** Either way: a join leaves the stores as they are, or as [joined] says. *)
Lemma join_cases b id data now s :
  fst (on_join_room (handlers b) id data now s) = s \/
  exists lang, fst (on_join_room (handlers b) id data now s) = joined id data now lang s.
Proof.
  destruct b; simpl.
  - right. apply server_js_join.
  - destruct (truthy (room data)) eqn:Hroom.
    + destruct (truthy (role data)) eqn:Hrole.
      * right. destruct (part_000_join id data now s Hroom Hrole) as (lang & _ & H). eauto.
      * left. rewrite part_000_join_rejected; auto.
    + left. rewrite part_000_join_rejected; auto.
Qed.

Lemma member_leave_previous id s r u :
  member (leave_previous id s) r u -> member (activeRooms s) r u.
Proof.
  unfold leave_previous. destruct (truthy _); [|done].
  rewrite member_leave. tauto.
Qed.

Lemma member_stays id s r u :
  u <> id -> member (activeRooms s) r u -> member (leave_previous id s) r u.
Proof.
  intros Hne Hm. unfold leave_previous. destruct (truthy _); [|done].
  apply member_leave. split; [done|]. tauto.
Qed.

Lemma users_joined_room id data now lang s :
  users <$> activeRooms (joined id data now lang s) !! room data =
    Some (users_add id (users (found_or_new (room data) now (leave_previous id s)))).
Proof. unfold joined. simpl. rewrite lookup_insert_eq. simpl. by rewrite users_if. Qed.

Lemma member_joined id data now lang s r u :
  member (activeRooms (joined id data now lang s)) r u <->
  (r = room data /\ u = id) \/ member (leave_previous id s) r u.
Proof.
  unfold joined, member. simpl. destruct (decide (room data = r)) as [<-|Hne].
  - rewrite lookup_insert_eq. unfold found_or_new. split.
    + intros (rd & ? & Hu). simplify_eq. rewrite users_if in Hu. simpl in Hu.
      apply elem_of_users_add in Hu as [->|Hu]; [by left|right].
      destruct (leave_previous id s !! room data) as [rd|]; simpl in Hu; [eauto|].
      by apply elem_of_nil in Hu.
    + intros H. eexists. split; [done|]. rewrite users_if. simpl.
      apply elem_of_users_add. destruct H as [[_ ->]|(rd & Hrd & Hu)]; [by left|].
      right. by rewrite Hrd.
  - rewrite lookup_insert_ne by done. split; [by right|].
    intros [[-> _]|]; done.
Qed.

(** ** Deferred cleanup of empty rooms *)

Lemma step_last_disconnect b id w info rd :
  userRoles (stores w) !! id = Some info ->
  activeRooms (stores w) !! info_room info = Some rd ->
  users_delete id (users rd) = [] ->
  exists w1 rd1,
    step (handlers b) (disconnect_ev id) w = Some w1 /\
    activeRooms (stores w1) = <[ info_room info := rd1 ]> (activeRooms (stores w)) /\
    userRoles (stores w1) = delete id (userRoles (stores w)) /\
    users rd1 = [] /\
    clock w1 = clock w /\
    timers w1 = timers w ++ [((clock w + 300000)%Z, info_room info)] /\
    hotelName rd1 = hotelName rd /\
    createdAt rd1 = createdAt rd.
Proof.
  intros Hs Hrd Hnil. rewrite step_disconnect, Hs, Hrd. cbv zeta.
  eexists. eexists. split; [reflexivity|]. simpl.
  split; [reflexivity|]. split; [reflexivity|].
  rewrite !users_if. simpl. rewrite Hnil. simpl.
  repeat split; by destruct (strict_eq _ _).
Qed.

(** A join that is carried out, for either build. *)
Lemma carried_out_join b id data now s :
  (b = part_000 -> truthy (room data) = true /\ truthy (role data) = true) ->
  exists lang,
    fst (on_join_room (handlers b) id data now s) = joined id data now lang s.
Proof.
  intros Hok. destruct b; simpl.
  - apply server_js_join.
  - destruct (Hok eq_refl) as [Ht Hr].
    destruct (part_000_join id data now s Ht Hr) as (l & _ & H). eauto.
Qed.

(** The room just joined lists the joiner, so its member set is not empty. *)
Lemma joined_room_has_the_joiner id data now lang s :
  exists rd,
    activeRooms (joined id data now lang s) !! room data = Some rd /\
    id ∈ users rd /\
    (length (users rd) =? 0)%nat = false.
Proof.
  pose proof (users_joined_room id data now lang s) as Hu.
  destruct (activeRooms (joined id data now lang s) !! room data) as [rd|]; [|done].
  simpl in Hu. injection Hu as Hu. exists rd. split; [done|].
  assert (id ∈ users rd) as Hin.
  { rewrite Hu. apply elem_of_users_add. by left. }
  split; [done|]. destruct (users rd); [by apply elem_of_nil in Hin|done].
Qed.

(** A join followed by the firing of a cleanup that was pending for the room:
    the cleanup finds the joiner and leaves the stores of the join alone. *)
Lemma join_then_cleanup b id data w n due ms :
  (b = part_000 -> truthy (room data) = true /\ truthy (role data) = true) ->
  timers w !! n = Some (due, room data) ->
  (0 <= ms)%Z ->
  (due <= clock w + ms)%Z ->
  exists w' rd',
    steps (handlers b) [join_room_ev id data; elapse ms; timer_fired n] w = Some w' /\
    stores w' = fst (on_join_room (handlers b) id data (clock w) (stores w)) /\
    activeRooms (stores w') !! room data = Some rd' /\
    id ∈ users rd' /\
    timers w' = delete n (timers w).
Proof.
  intros Hok Ht Hms Hdue.
  destruct (carried_out_join b id data (clock w) (stores w) Hok) as (lang & Hj).
  destruct (joined_room_has_the_joiner id data (clock w) lang (stores w))
    as (rd & Hrd & Hin & Hlen).
  unfold steps. simpl step at 1.
  destruct (on_join_room (handlers b) id data (clock w) (stores w)) as [s acts].
  simpl in Hj. subst s. simpl step at 1.
  assert ((0 <=? ms)%Z = true) as -> by (apply Z.leb_le; lia).
  rewrite step_timer. cbn [stores clock timers tasks log]. rewrite Ht.
  assert ((due <=? clock w + ms)%Z = true) as -> by (apply Z.leb_le; lia).
  rewrite Hrd, Hlen. exists (World (joined id data (clock w) lang (stores w))
                              (clock w + ms) (delete n (timers w)) (tasks w)
                              (log w ++ acts)), rd.
  split; [reflexivity|]. simpl. auto.
Qed.

(** A disconnect that empties the room, followed by the firing of a cleanup
    that was already pending for it: the room is deleted, however little time
    has passed since it became empty. *)
Lemma disconnect_then_stale_cleanup b id w info rd n due ms :
  userRoles (stores w) !! id = Some info ->
  activeRooms (stores w) !! info_room info = Some rd ->
  users_delete id (users rd) = [] ->
  timers w !! n = Some (due, info_room info) ->
  (0 <= ms)%Z ->
  (due <= clock w + ms)%Z ->
  exists w',
    steps (handlers b) [disconnect_ev id; elapse ms; timer_fired n] w = Some w' /\
    activeRooms (stores w') = delete (info_room info) (activeRooms (stores w)) /\
    clock w' = (clock w + ms)%Z.
Proof.
  intros Hs Hrd Hnil Ht Hms Hdue.
  destruct (step_last_disconnect b id w info rd Hs Hrd Hnil)
    as (w1 & rd1 & Hstep & Hrooms & Hroles & Hempty & Hclock & Htimers & _).
  unfold steps. rewrite Hstep. simpl step at 1.
  assert ((0 <=? ms)%Z = true) as -> by (apply Z.leb_le; lia).
  rewrite step_timer. simpl. rewrite Htimers.
  rewrite (lookup_app_l_Some _ _ _ _ Ht).
  assert ((due <=? clock w1 + ms)%Z = true) as -> by (apply Z.leb_le; lia).
  rewrite Hrooms, lookup_insert_eq, Hempty. simpl.
  eexists. split; [reflexivity|]. simpl.
  rewrite delete_insert_eq, Hclock. auto.
Qed.

(** C3 does not hold as it is stated: a rejoin within the delay does not by
    itself keep the room. In both builds the lobby is left empty at time 0,
    which schedules a cleanup due at 300000 ms; a guest joins it again at
    1000 ms, within the delay, and disconnects at 299000 ms, which schedules
    a second cleanup due at 599000 ms. When the first cleanup fires at
    300000 ms it finds the room empty and deletes it, one second after the
    room became empty. *)
Lemma stale_cleanup_deletes_rejoined_room :
  Forall
    (fun srv =>
       (users <$> activeRooms (stores (after srv rejoined)) !! lobby = Some ["g2"] /\
        clock (after srv rejoined) = 1000%Z /\
        timers (after srv rejoined) = [(300000%Z, lobby)]) /\
       (users <$> activeRooms (stores (after srv rejoined_and_left)) !! lobby = Some [] /\
        clock (after srv rejoined_and_left) = 300000%Z /\
        timers (after srv rejoined_and_left) = [(300000%Z, lobby); (599000%Z, lobby)]) /\
       exists w',
         step srv (timer_fired 0) (after srv rejoined_and_left) = Some w' /\
         activeRooms (stores w') !! lobby = None /\
         clock w' = 300000%Z)
    [ServerJs.server; Part000.server].
Proof.
  constructor; [|constructor; [|constructor]].
  all: split; [split; [|split]; vm_compute; reflexivity|].
  all: split; [split; [|split]; vm_compute; reflexivity|].
  all: eexists; split; [vm_compute; reflexivity|].
  all: split; vm_compute; reflexivity.
Qed.

(** C3, amended. No client event and no settled collaborator call removes a
    room from [activeRooms]; only a timer does. A disconnect leaves the
    connection's room in [activeRooms] with the connection taken out of its
    member set, and it schedules a cleanup, due 300000 ms (5 minutes) later,
    exactly when that member set has become empty. A pending cleanup cannot
    fire before it is due; when it fires it deletes the room if the room
    exists with an empty member set at that moment, and otherwise leaves the
    stores as they are. So when a connection joins the room while a cleanup
    for it is pending and that cleanup fires with nothing but time passing in
    between, the room stays, with the joiner in its member set and the stores
    as the join left them. A join does not cancel a pending cleanup, though:
    when a disconnect empties the room and a cleanup scheduled earlier for it
    is due, that cleanup deletes the room, however little time has passed
    since the room became empty. *)
Theorem deferred_cleanup (b : build) (w : world) :
  (forall i w' r,
     (forall n, i <> timer_fired n) ->
     step (handlers b) i w = Some w' ->
     is_Some (activeRooms (stores w) !! r) ->
     is_Some (activeRooms (stores w') !! r)) /\
  (forall id info rd,
     userRoles (stores w) !! id = Some info ->
     activeRooms (stores w) !! info_room info = Some rd ->
     exists w' rd',
       step (handlers b) (disconnect_ev id) w = Some w' /\
       activeRooms (stores w') !! info_room info = Some rd' /\
       users rd' = users_delete id (users rd) /\
       (users rd' = [] ->
        timers w' = timers w ++ [((clock w + 300000)%Z, info_room info)]) /\
       (users rd' <> [] -> timers w' = timers w)) /\
  (forall n due r,
     timers w !! n = Some (due, r) ->
     ((clock w < due)%Z -> step (handlers b) (timer_fired n) w = None) /\
     ((due <= clock w)%Z ->
      exists w',
        step (handlers b) (timer_fired n) w = Some w' /\
        timers w' = delete n (timers w) /\
        (forall rd,
           activeRooms (stores w) !! r = Some rd -> users rd = [] ->
           stores w' = Store (delete r (activeRooms (stores w))) (userRoles (stores w))) /\
        (forall rd,
           activeRooms (stores w) !! r = Some rd -> users rd <> [] ->
           stores w' = stores w) /\
        (activeRooms (stores w) !! r = None -> stores w' = stores w))) /\
  (forall n due id data ms,
     timers w !! n = Some (due, room data) ->
     (b = part_000 -> truthy (room data) = true /\ truthy (role data) = true) ->
     (0 <= ms)%Z ->
     (due <= clock w + ms)%Z ->
     exists w' rd',
       steps (handlers b) [join_room_ev id data; elapse ms; timer_fired n] w = Some w' /\
       stores w' = fst (on_join_room (handlers b) id data (clock w) (stores w)) /\
       activeRooms (stores w') !! room data = Some rd' /\
       id ∈ users rd' /\
       timers w' = delete n (timers w)) /\
  (forall n due id info rd ms,
     timers w !! n = Some (due, info_room info) ->
     userRoles (stores w) !! id = Some info ->
     activeRooms (stores w) !! info_room info = Some rd ->
     users_delete id (users rd) = [] ->
     (0 <= ms)%Z ->
     (due <= clock w + ms)%Z ->
     exists w',
       steps (handlers b) [disconnect_ev id; elapse ms; timer_fired n] w = Some w' /\
       activeRooms (stores w') = delete (info_room info) (activeRooms (stores w)) /\
       clock w' = (clock w + ms)%Z).
Proof.
  split; [|split; [|split; [|split]]].
  - intros i w' r. apply client_events_keep_rooms.
  - intros id info rd Hs Hrd. rewrite step_disconnect, Hs, Hrd.
    eexists. eexists. split; [reflexivity|]. simpl.
    split; [apply lookup_insert_eq|].
    split; [by destruct (strict_eq _ _)|].
    split.
    + intros Hnil. apply length_zero_nil in Hnil. by rewrite Hnil.
    + intros Hne. destruct (length _ =? 0)%nat eqn:Hl; [|apply app_nil_r].
      by apply length_zero_nil in Hl.
  - intros n due r Ht. rewrite step_timer, Ht. split.
    + intros Hlt. apply Z.leb_gt in Hlt. by rewrite Hlt.
    + intros Hle. apply Z.leb_le in Hle. rewrite Hle.
      eexists. split; [reflexivity|]. simpl. split; [reflexivity|].
      split; [|split].
      * intros rd -> ->. reflexivity.
      * intros rd -> Hne. destruct (length (users rd) =? 0)%nat eqn:Hl; [|done].
        by apply length_zero_nil in Hl.
      * intros ->. reflexivity.
  - intros n due id data ms Ht Hok Hms Hdue. by eapply join_then_cleanup.
  - intros n due id info rd ms Ht Hs Hrd Hnil Hms Hdue.
    by eapply disconnect_then_stale_cleanup.
Qed.

(** In [src/server.js] the receptionist leaves the lobby empty and a guest
    joins it before the cleanup fires, five minutes later. *)
Lemma deferred_cleanup_witness :
  exists w' rd',
    steps ServerJs.server
      [join_room_ev "g7" (joins lobby guest JUndefined); elapse 300000; timer_fired 0]
      (after ServerJs.server (desk_only ++ [disconnect_ev "r1"])) = Some w' /\
    activeRooms (stores w') !! lobby = Some rd' /\
    "g7" ∈ users rd' /\
    timers w' = [].
Proof.
  destruct (proj1 (proj2 (proj2 (proj2
              (deferred_cleanup server_js
                 (after ServerJs.server (desk_only ++ [disconnect_ev "r1"]))))))
              0%nat 300000%Z "g7" (joins lobby guest JUndefined) 300000%Z
              ltac:(vm_compute; reflexivity) ltac:(discriminate)
              ltac:(lia) ltac:(vm_compute; discriminate))
    as (w' & rd' & Hsteps & _ & Hrd' & Hin & Htimers).
  exists w', rd'. split; [exact Hsteps|]. split; [exact Hrd'|]. split; [exact Hin|].
  exact Htimers.
Defined.

(** * Further properties *)

(** ** Attempts that end with a status *)

Lemma still_in_js_or id r s :
  still_in id r s ->
  exists info, userRoles s !! id = Some info /\ info_room info = r /\ truthy r = true.
Proof. intros (Ht & info & Hs & Hr). eauto. Qed.

(** X2. For a message whose sender holds a session for the declared room, once
    the awaited collaborator calls have settled the last thing the handler
    does is broadcast a processing_status event to the declared room: complete
    when the translation was delivered, error when the transcript has no
    speech, and error when a collaborator call failed, provided that at the
    moment of the failure the sender's session still names the declared room
    and that room id is truthy. *)
Theorem authorized_attempt_ends_with_status (b : build) (id : string) (data : payload)
    (s s1 s2 : store) (info : userInfo)
    (o1 : outcome sttResult) (o2 : outcome translationResult) :
  userRoles s !! id = Some info ->
  info_room info = room data ->
  (rejected o1 -> still_in id (room data) s1) ->
  (rejected o2 -> still_in id (room data) s2) ->
  last_status (room data)
    (run (on_audio_message (handlers b) id data) s
       [(SttSettled o1, s1); (TrSettled o2, s2)]) =
    Some (match o1 with
          | Resolved r =>
              if has_speech (transcript r)
              then match o2 with Resolved _ => "complete" | Rejected _ => "error" end
              else "error"
          | Rejected _ => "error"
          end) /\
  last_status (room data)
    (run (on_text_message (handlers b) id data) s [(TrSettled o2, s2)]) =
    Some (match o2 with Resolved _ => "complete" | Rejected _ => "error" end).
Proof.
  intros Hs Hroom H1 H2.
  assert (forall e, o2 = Rejected e ->
            exists i, userRoles s2 !! id = Some i /\ info_room i = room data /\
                      truthy (room data) = true) as H2'.
  { intros e ->. apply still_in_js_or, H2. exact I. }
  assert (forall e, o1 = Rejected e ->
            exists i, userRoles s1 !! id = Some i /\ info_room i = room data /\
                      truthy (room data) = true) as H1'.
  { intros e ->. apply still_in_js_or, H1. exact I. }
  clear H1 H2. unfold last_status, has_speech.
  split.
  - destruct o1 as [r|e1].
    + destruct (truthy (js_trim (transcript r))) eqn:Hsp.
      * destruct o2 as [t|e2].
        -- destruct b; simpl; unfold ServerJs.direction;
             rewrite Hs, Hroom, strict_eq_refl; simpl;
             rewrite ?server_js_guard, ?part_000_guard, Hsp; simpl;
             destruct (strict_eq (role data) (JStr "guest")); simpl;
             by rewrite bool_decide_eq_true_2.
        -- destruct (H2' e2 eq_refl) as (i & Hi & Hir & Ht).
           destruct b; simpl; unfold ServerJs.direction;
             rewrite Hs, Hroom, strict_eq_refl; simpl;
             rewrite ?server_js_guard, ?part_000_guard, Hsp; simpl;
             destruct (strict_eq (role data) (JStr "guest")); simpl;
             rewrite Hi, Hir; unfold js_or; rewrite Ht; simpl;
             by rewrite bool_decide_eq_true_2.
      * destruct b; simpl; rewrite Hs, Hroom, strict_eq_refl; simpl;
          rewrite ?server_js_guard, ?part_000_guard, Hsp; simpl;
          by rewrite bool_decide_eq_true_2.
    + destruct (H1' e1 eq_refl) as (i & Hi & Hir & Ht).
      destruct b; simpl; rewrite Hs, Hroom, strict_eq_refl; simpl;
        rewrite Hi, Hir; unfold js_or; rewrite Ht; simpl;
        by rewrite bool_decide_eq_true_2.
  - destruct o2 as [t|e2].
    + destruct b; simpl; unfold ServerJs.direction;
        rewrite Hs, Hroom, strict_eq_refl; simpl;
        destruct (strict_eq (role data) (JStr "guest")); simpl;
        by rewrite bool_decide_eq_true_2.
    + destruct (H2' e2 eq_refl) as (i & Hi & Hir & Ht).
      destruct b; simpl; unfold ServerJs.direction;
        rewrite Hs, Hroom, strict_eq_refl; simpl;
        destruct (strict_eq (role data) (JStr "guest")); simpl;
        rewrite Hi, Hir; unfold js_or; rewrite Ht; simpl;
        by rewrite bool_decide_eq_true_2.
Qed.

(** The translation of a guest's text message fails in [src/server.js]. *)
Lemma authorized_attempt_ends_with_status_witness :
  last_status lobby
    (run (ServerJs.text_message "g1" guest_says)
       (stores (after ServerJs.server desk_and_guest))
       [(TrSettled (Rejected boom), stores (after ServerJs.server desk_and_guest))]) =
    Some "error".
Proof.
  apply (proj2 (authorized_attempt_ends_with_status server_js "g1" guest_says
                  (stores (after ServerJs.server desk_and_guest))
                  (stores (after ServerJs.server desk_and_guest))
                  (stores (after ServerJs.server desk_and_guest))
                  (UserInfo lobby guest (JStr "bn-IN"))
                  (Resolved (SttResult (JStr "namaste") None)) (Rejected boom)
                  ltac:(vm_compute; reflexivity) ltac:(reflexivity)
                  ltac:(intros [])
                  ltac:(intros _; split; [reflexivity|];
                        eexists; split; [vm_compute; reflexivity|reflexivity]))).
Defined.

(** ** Sessions point into member sets *)

Lemma joined_linked id data now lang s : linked s -> linked (joined id data now lang s).
Proof.
  intros Hl u info Hu. apply member_joined. unfold joined in Hu. simpl in Hu.
  destruct (decide (u = id)) as [->|Hne].
  - rewrite lookup_insert_eq in Hu. simplify_eq. by left.
  - rewrite lookup_insert_ne in Hu by done. right. apply member_stays; [done|].
    by apply Hl.
Qed.

Lemma disconnect_linked b id w w' :
  step (handlers b) (disconnect_ev id) w = Some w' ->
  linked (stores w) -> linked (stores w').
Proof.
  rewrite step_disconnect. intros Hstep Hl.
  destruct (userRoles (stores w) !! id) as [info|] eqn:Hi; [|by simplify_eq].
  destruct (activeRooms (stores w) !! info_room info) as [rd0|] eqn:Hrd;
    cbv zeta in Hstep; simplify_eq; intros u i Hu; simpl in *;
    apply lookup_delete_Some in Hu as [Hne Hu]; specialize (Hl u i Hu); [|done].
  destruct Hl as (rd & Hr & Hin). unfold member.
  destruct (decide (info_room info = info_room i)) as [Heq|Hneq].
  - rewrite Heq, lookup_insert_eq. eexists. split; [done|].
    rewrite users_if. simpl. apply elem_of_users_delete. split; [|done].
    assert (rd = rd0) as <- by congruence. done.
  - rewrite lookup_insert_ne by done. eauto.
Qed.

Lemma timer_linked b n w w' :
  step (handlers b) (timer_fired n) w = Some w' ->
  linked (stores w) -> linked (stores w').
Proof.
  rewrite step_timer. intros Hstep Hl.
  destruct (timers w !! n) as [[due r]|]; [|done].
  destruct (due <=? clock w)%Z; [|done].
  destruct (activeRooms (stores w) !! r) as [rd|] eqn:Hrd; [|by simplify_eq].
  destruct (length (users rd) =? 0)%nat eqn:Hlen; simplify_eq; [|done].
  apply length_zero_nil in Hlen. intros u i Hu. simpl in *.
  destruct (Hl u i Hu) as (rd' & Hr & Hin). exists rd'. split; [|done].
  rewrite lookup_delete_ne; [done|]. intros ->. simplify_eq.
  rewrite Hlen in Hin. by apply elem_of_nil in Hin.
Qed.

Lemma step_linked b i w w' :
  step (handlers b) i w = Some w' -> linked (stores w) -> linked (stores w').
Proof.
  intros Hstep Hl. destruct i as [id data|id data|id data|id data|id|n o|n|ms].
  - simpl in Hstep.
    destruct (join_cases b id data (clock w) (stores w)) as [Hsame|(lang & Hj)];
      destruct (on_join_room (handlers b) id data (clock w) (stores w)) as [s acts];
      simpl in *; simplify_eq; [done|]. by apply joined_linked.
  - simpl in Hstep. simplify_eq. by rewrite spawn_stores.
  - simpl in Hstep. simplify_eq. by rewrite spawn_stores.
  - simpl in Hstep. by simplify_eq.
  - by eapply disconnect_linked.
  - simpl in Hstep.
    destruct (tasks w !! n) as [[]|], o; simplify_eq; by rewrite spawn_stores.
  - by eapply timer_linked.
  - simpl in Hstep. destruct (0 <=? ms)%Z; by simplify_eq.
Qed.

(** X1. In every state either build reaches from the empty server by socket
    events, settled calls and timers, every session names a room that exists
    in activeRooms and whose member set contains the connection. This holds in
    src/server.js even after joins with a falsy room id. *)
Theorem reachable_sessions_linked (b : build) (w : world) :
  reachable (handlers b) w -> linked (stores w).
Proof.
  induction 1 as [|i w w' _ IH Hstep].
  - intros id info Hid. simpl in Hid. by rewrite lookup_empty in Hid.
  - by eapply step_linked.
Qed.

Lemma steps_reachable srv evs w w' :
  reachable srv w -> steps srv evs w = Some w' -> reachable srv w'.
Proof.
  revert w. induction evs as [|i evs IH]; simpl; intros w Hw Hsteps.
  - by simplify_eq.
  - destruct (step srv i w) as [w1|] eqn:Hstep; [|done].
    eapply IH; [|done]. by eapply reachable_step.
Qed.

Lemma after_reachable srv evs :
  is_Some (steps srv evs init) -> reachable srv (after srv evs).
Proof.
  intros [w Hw]. unfold after. rewrite Hw. simpl.
  eapply steps_reachable; [apply reachable_init|done].
Qed.

Lemma reachable_sessions_linked_witness :
  linked (stores (after ServerJs.server empty_then_B)).
Proof.
  apply (reachable_sessions_linked server_js).
  apply after_reachable. vm_compute. eauto.
Defined.

(** ** Member sets are sets *)

Lemma users_add_NoDup id us : NoDup us -> NoDup (users_add id us).
Proof.
  intros Hnd. unfold users_add. case_bool_decide as Hin; [done|].
  apply NoDup_app. split; [done|]. split; [|apply NoDup_singleton].
  intros x Hx Hx'. apply list_elem_of_singleton in Hx'. by subst.
Qed.

Lemma users_delete_NoDup id us : NoDup us -> NoDup (users_delete id us).
Proof. apply NoDup_filter. Qed.

Lemma leave_previous_distinct id s r rd :
  distinct_members s -> leave_previous id s !! r = Some rd -> NoDup (users rd).
Proof.
  intros Hd. unfold leave_previous. destruct (truthy _); [|apply Hd].
  intros Hr. apply lookup_alter_Some in Hr as [(<- & rd0 & H0 & ->)|[_ Hr]].
  - simpl. apply users_delete_NoDup. by eapply Hd.
  - by eapply Hd.
Qed.

Lemma joined_distinct id data now lang s :
  distinct_members s -> distinct_members (joined id data now lang s).
Proof.
  intros Hd r rd. unfold joined. simpl.
  destruct (decide (room data = r)) as [<-|Hne].
  - rewrite lookup_insert_eq. intros ?. simplify_eq. rewrite users_if. simpl.
    apply users_add_NoDup. unfold found_or_new.
    destruct (leave_previous id s !! room data) as [rd|] eqn:Hrd; simpl.
    + by eapply leave_previous_distinct.
    + apply NoDup_nil_2.
  - rewrite lookup_insert_ne by done. by apply leave_previous_distinct.
Qed.

Lemma step_distinct b i w w' :
  step (handlers b) i w = Some w' ->
  distinct_members (stores w) -> distinct_members (stores w').
Proof.
  intros Hstep Hd. destruct i as [id data|id data|id data|id data|id|n o|n|ms].
  - simpl in Hstep.
    destruct (join_cases b id data (clock w) (stores w)) as [Hsame|(lang & Hj)];
      destruct (on_join_room (handlers b) id data (clock w) (stores w)) as [s acts];
      simpl in *; simplify_eq; [done|]. by apply joined_distinct.
  - simpl in Hstep. simplify_eq. by rewrite spawn_stores.
  - simpl in Hstep. simplify_eq. by rewrite spawn_stores.
  - simpl in Hstep. by simplify_eq.
  - rewrite step_disconnect in Hstep.
    destruct (userRoles (stores w) !! id) as [info|] eqn:Hi; [|by simplify_eq].
    destruct (activeRooms (stores w) !! info_room info) as [rd0|] eqn:Hrd;
      cbv zeta in Hstep; simplify_eq; [|done].
    intros r rd. simpl. destruct (decide (info_room info = r)) as [<-|Hne].
    + rewrite lookup_insert_eq. intros ?. simplify_eq. rewrite users_if. simpl.
      apply users_delete_NoDup. by eapply Hd.
    + rewrite lookup_insert_ne by done. apply Hd.
  - simpl in Hstep.
    destruct (tasks w !! n) as [[]|], o; simplify_eq; by rewrite spawn_stores.
  - rewrite step_timer in Hstep.
    destruct (timers w !! n) as [[due r]|]; [|done].
    destruct (due <=? clock w)%Z; [|done].
    destruct (activeRooms (stores w) !! r) as [rd|] eqn:Hrd; [|by simplify_eq].
    destruct (length (users rd) =? 0)%nat; simplify_eq; [|done].
    intros r' rd'. simpl. intros Hr'. apply lookup_delete_Some in Hr' as [_ Hr'].
    by eapply Hd.
  - simpl in Hstep. destruct (0 <=? ms)%Z; by simplify_eq.
Qed.

Lemma steps_reachable_by srv ok evs w w' :
  reachable_by srv ok w -> Forall ok evs -> steps srv evs w = Some w' ->
  reachable_by srv ok w'.
Proof.
  revert w. induction evs as [|i evs IH]; simpl; intros w Hw Hok Hsteps.
  - by simplify_eq.
  - apply Forall_cons in Hok as [Hi Hok].
    destruct (step srv i w) as [w1|] eqn:Hstep; [|done].
    eapply IH; [|done..]. by eapply reachable_by_step.
Qed.

(** X4. In either build, and so in src/server.js too, member sets agree with
    the sessions in every state reached by events in which each join names a
    truthy room. *)
Theorem members_consistent_when_joins_name_rooms (b : build) (w : world) :
  reachable_by (handlers b) names_a_room w -> consistent (stores w).
Proof.
  intros Hreach. cut (sound (stores w)); [by intros []|].
  induction Hreach as [|i w w' _ IH Hok Hstep]; [apply init_sound|].
  refine (step_sound b i w w' _ Hstep IH).
  intros id data ->. exact Hok.
Qed.

Lemma members_consistent_when_joins_name_rooms_witness :
  consistent (stores (after ServerJs.server two_guests_one_left)).
Proof.
  apply (members_consistent_when_joins_name_rooms server_js).
  apply (steps_reachable_by _ _ two_guests_one_left init); [constructor| |vm_compute; reflexivity].
  repeat (constructor; [first [reflexivity|exact I]|]). constructor.
Defined.

Lemma part_000_members_consistent_witness :
  consistent (stores (after Part000.server empty_then_B)).
Proof.
  apply part_000_members_consistent.
  apply after_reachable. vm_compute. eauto.
Defined.

(** Both invariants at once, for the proofs below. *)
Lemma reachable_tidy b w :
  reachable (handlers b) w -> linked (stores w) /\ distinct_members (stores w).
Proof.
  induction 1 as [|i w w' _ [IHl IHd] Hstep].
  - split.
    + intros id info Hid. simpl in Hid. by rewrite lookup_empty in Hid.
    + intros r rd Hr. simpl in Hr. by rewrite lookup_empty in Hr.
  - split; [by eapply step_linked|by eapply step_distinct].
Qed.

(** ** What join and disconnect announce *)

Lemma length_users_delete id us :
  NoDup us -> id ∈ us -> length (users_delete id us) = pred (length us).
Proof.
  intros Hnd Hin. induction us as [|u us IH]; [by apply elem_of_nil in Hin|].
  apply NoDup_cons in Hnd as [Hu Hnd]. unfold users_delete in *. simpl.
  rewrite filter_cons. destruct (decide (u <> id)) as [Hne|Heq].
  - apply elem_of_cons in Hin as [->|Hin]; [done|].
    simpl. rewrite IH by done. destruct us; [by apply elem_of_nil in Hin|done].
  - apply dec_stable in Heq. subst u. simpl. f_equal.
    clear IH Hin. induction us as [|v us IH]; [done|].
    apply not_elem_of_cons in Hu as [Hv Hu]. apply NoDup_cons in Hnd as [_ Hnd].
    rewrite filter_cons. destruct (decide (v <> id)); [|done].
    f_equal. by apply IH.
Qed.

(** X5. In a reachable state, the disconnect of a connection with a session
    finds its room with the connection in it, removes the session, announces
    user_left to the others and room_stats with one member fewer, keeps the
    room's hotelName and createdAt, clears guestLanguage only for a guest, and
    schedules a cleanup 300000 ms later exactly when the connection was the
    only member. *)
Theorem disconnect_reports_one_member_fewer (b : build) (id : string) (w : world)
    (info : userInfo) :
  reachable (handlers b) w ->
  userRoles (stores w) !! id = Some info ->
  exists rd rd',
    activeRooms (stores w) !! info_room info = Some rd /\
    id ∈ users rd /\
    step (handlers b) (disconnect_ev id) w =
      Some (World
              (Store (<[ info_room info := rd' ]> (activeRooms (stores w)))
                 (delete id (userRoles (stores w))))
              (clock w)
              (timers w ++
                 if (length (users rd) =? 1)%nat
                 then [((clock w + 300000)%Z, info_room info)] else [])
              (tasks w)
              (log w ++
                 [ Emitted (ToOthers id (info_room info)) (user_left (info_role info) id);
                   Emitted (ToRoom (info_room info))
                     (room_stats (length (users rd) - 1) (hotelName rd)
                        (guestLanguage rd')) ])) /\
    users rd' = users_delete id (users rd) /\
    length (users rd') = length (users rd) - 1 /\
    hotelName rd' = hotelName rd /\
    createdAt rd' = createdAt rd /\
    guestLanguage rd' =
      (if strict_eq (info_role info) (JStr "guest") then JNull else guestLanguage rd).
Proof.
  intros Hreach Hs. destruct (reachable_tidy b w Hreach) as [Hl Hd].
  destruct (Hl id info Hs) as (rd & Hrd & Hin).
  pose proof (length_users_delete id (users rd) (Hd _ _ Hrd) Hin) as Hlen.
  exists rd. eexists. split; [done|]. split; [done|].
  rewrite step_disconnect, Hs, Hrd. cbv zeta.
  split; [|split; [|split; [|split; [|split]]]].
  - rewrite !users_if. simpl. rewrite Hlen.
    assert (hotelName (if strict_eq (info_role info) (JStr "guest")
                       then set_guestLanguage JNull
                              (set_users (users_delete id (users rd)) rd)
                       else set_users (users_delete id (users rd)) rd) = hotelName rd)
      as -> by (by destruct (strict_eq _ _)).
    replace (pred (length (users rd)) =? 0)%nat with (length (users rd) =? 1)%nat.
    + by rewrite Nat.sub_1_r.
    + destruct (users rd) as [|? [|? ?]]; [by apply elem_of_nil in Hin|done..].
  - by rewrite users_if.
  - rewrite users_if. simpl. rewrite Hlen. lia.
  - by destruct (strict_eq _ _).
  - by destruct (strict_eq _ _).
  - by destruct (strict_eq _ _).
Qed.


Lemma disconnect_reports_one_member_fewer_witness :
  exists rd rd',
    activeRooms (stores (after ServerJs.server desk_and_guest)) !! lobby = Some rd /\
    "g1" ∈ users rd /\
    length (users rd') = length (users rd) - 1.
Proof.
  destruct (disconnect_reports_one_member_fewer server_js "g1"
              (after ServerJs.server desk_and_guest)
              (UserInfo lobby guest (JStr "bn-IN"))
              ltac:(apply after_reachable; vm_compute; eauto)
              ltac:(vm_compute; reflexivity))
    as (rd & rd' & Hrd & Hin & _ & _ & Hlen & _).
  exists rd, rd'. split; [exact Hrd|]. split; [exact Hin|exact Hlen].
Defined.

Lemma leave_previous_lookup id s r rd :
  activeRooms s !! r = Some rd ->
  exists rd1,
    leave_previous id s !! r = Some rd1 /\
    hotelName rd1 = hotelName rd /\
    createdAt rd1 = createdAt rd /\
    guestLanguage rd1 = guestLanguage rd.
Proof.
  intros Hr. unfold leave_previous. destruct (truthy _); [|eauto].
  set (prev := match userRoles s !! id with
               | Some i => info_room i | None => JUndefined end).
  destruct (decide (prev = r)) as [->|Hne].
  - rewrite lookup_alter_eq, Hr. simpl. eauto.
  - rewrite lookup_alter_ne by done. eauto.
Qed.

Lemma leave_previous_lookup_None id s r :
  activeRooms s !! r = None -> leave_previous id s !! r = None.
Proof.
  intros Hr. unfold leave_previous. destruct (truthy _); [|done].
  by apply lookup_alter_None.
Qed.

(** X6. A join that is carried out (in part_000: room and role truthy) emits
    exactly three events: room_joined to the joiner, user_joined to the others
    in the room, and one room_stats to the whole room whose userCount,
    hotelName and guestLanguage are those of the room as stored after the
    join, which contains the joiner. *)
Theorem join_announces_the_stored_room (b : build) (id : string) (data : payload)
    (now : Z) (s : store) :
  (b = part_000 -> truthy (room data) = true /\ truthy (role data) = true) ->
  exists rd name,
    activeRooms (fst (on_join_room (handlers b) id data now s)) !! room data = Some rd /\
    id ∈ users rd /\
    snd (on_join_room (handlers b) id data now s) ≡ₚ
      [ Emitted (ToSocket id) (room_joined (room data) (role data) name);
        Emitted (ToOthers id (room data)) (user_joined (role data) name id);
        Emitted (ToRoom (room data))
          (room_stats (length (users rd)) (hotelName rd) (guestLanguage rd)) ] /\
    room_stats_of (snd (on_join_room (handlers b) id data now s)) =
      [ (room data, length (users rd), hotelName rd, guestLanguage rd) ].
Proof.
  intros Hok. destruct b; simpl.
  - unfold ServerJs.join_room. cbv zeta. simpl. rewrite lookup_insert_eq.
    eexists. eexists. split; [reflexivity|]. split; [|split; reflexivity].
    rewrite users_if. simpl. apply elem_of_users_add. by left.
  - destruct (Hok eq_refl) as [Hroom Hrole].
    unfold Part000.join_room. cbv zeta. rewrite Hroom, Hrole. simpl.
    rewrite lookup_insert_eq.
    eexists. eexists. split; [reflexivity|]. split; [|split; [|reflexivity]].
    + rewrite users_if. simpl. apply elem_of_users_add. by left.
    + apply perm_skip, perm_swap.
Qed.

Lemma join_announces_the_stored_room_witness :
  room_stats_of
    (snd (ServerJs.join_room "r1" (joins lobby receptionist JUndefined) 7
            (stores (after ServerJs.server desk_and_guest)))) =
    [ (lobby, 2, JStr "Unknown Hotel", JStr "bn-IN") ].
Proof.
  destruct (join_announces_the_stored_room server_js "r1"
              (joins lobby receptionist JUndefined) 7
              (stores (after ServerJs.server desk_and_guest))
              ltac:(discriminate))
    as (rd & name & Hrd & _ & _ & Hstats).
  vm_compute in Hrd. injection Hrd as <-. exact Hstats.
Defined.

Lemma disconnect_removes_session b id w w' :
  step (handlers b) (disconnect_ev id) w = Some w' ->
  userRoles (stores w') !! id = None.
Proof.
  intros Hstep. rewrite step_disconnect in Hstep.
  destruct (userRoles (stores w) !! id) as [info|] eqn:Hi; [|by simplify_eq].
  destruct (activeRooms (stores w) !! info_room info);
    cbv zeta in Hstep; simplify_eq; simpl; apply lookup_delete_eq.
Qed.

(** X7. After a disconnect the connection has no session, and a second
    disconnect of the same connection leaves the whole server state (stores,
    timers, log) unchanged. *)
Theorem second_disconnect_changes_nothing (b : build) (id : string) (w w' : world) :
  step (handlers b) (disconnect_ev id) w = Some w' ->
  userRoles (stores w') !! id = None /\
  step (handlers b) (disconnect_ev id) w' = Some w'.
Proof.
  intros Hstep. pose proof (disconnect_removes_session b id w w' Hstep) as Hgone.
  split; [done|]. rewrite step_disconnect, Hgone, !app_nil_r. by destruct w'.
Qed.

Lemma second_disconnect_changes_nothing_witness :
  step Part000.server (disconnect_ev "g2") (after Part000.server two_guests_one_left) =
    Some (after Part000.server two_guests_one_left).
Proof.
  apply (second_disconnect_changes_nothing part_000 "g2" (after Part000.server two_guests)).
  vm_compute. reflexivity.
Defined.

(** ** What join and disconnect keep of a room *)

Lemma joined_lookup id data now lang s r rd :
  activeRooms s !! r = Some rd ->
  exists rd',
    activeRooms (joined id data now lang s) !! r = Some rd' /\
    hotelName rd' = hotelName rd /\
    createdAt rd' = createdAt rd /\
    guestLanguage rd' =
      (if bool_decide (r = room data) && strict_eq (role data) (JStr "guest")
       then lang else guestLanguage rd).
Proof.
  intros Hr. destruct (leave_previous_lookup id s r rd Hr) as (rd1 & H1 & Hh & Hc & Hg).
  unfold joined. simpl. destruct (decide (room data = r)) as [<-|Hne].
  - rewrite lookup_insert_eq, bool_decide_eq_true_2 by done.
    unfold found_or_new. rewrite H1. simpl. eexists. split; [done|].
    destruct (strict_eq _ _); simpl; auto.
  - rewrite lookup_insert_ne by done. rewrite bool_decide_eq_false_2 by done.
    simpl. eauto.
Qed.

Lemma joined_lookup_new id data now lang s :
  activeRooms s !! room data = None ->
  activeRooms (joined id data now lang s) !! room data =
    Some (RoomData (JStr "Unknown Hotel") now [id]
            (if strict_eq (role data) (JStr "guest") then lang else JNull)).
Proof.
  intros Hr. apply (leave_previous_lookup_None id) in Hr.
  unfold joined. simpl. rewrite lookup_insert_eq. unfold found_or_new. rewrite Hr.
  simpl. by destruct (strict_eq _ _).
Qed.

(** X8. No socket event, settled call or clock tick changes the hotelName or
    createdAt of an existing room; a join to an existing room does not re-
    create it. *)
Theorem socket_events_keep_room_identity (b : build) (i : input) (w w' : world)
    (r : jsval) (rd : roomData) :
  (forall n, i <> timer_fired n) ->
  step (handlers b) i w = Some w' ->
  activeRooms (stores w) !! r = Some rd ->
  exists rd',
    activeRooms (stores w') !! r = Some rd' /\
    hotelName rd' = hotelName rd /\
    createdAt rd' = createdAt rd.
Proof.
  intros Hi Hstep Hr. destruct i as [id data|id data|id data|id data|id|n o|n|ms].
  - simpl in Hstep.
    destruct (join_cases b id data (clock w) (stores w)) as [Hsame|(lang & Hj)];
      destruct (on_join_room (handlers b) id data (clock w) (stores w)) as [s acts];
      simpl in *; simplify_eq; [eauto|].
    destruct (joined_lookup id data (clock w) lang (stores w) r rd Hr)
      as (rd' & H' & Hh & Hc & _). eauto.
  - simpl in Hstep. simplify_eq. rewrite spawn_stores. eauto.
  - simpl in Hstep. simplify_eq. rewrite spawn_stores. eauto.
  - simpl in Hstep. simplify_eq. eauto.
  - rewrite step_disconnect in Hstep.
    destruct (userRoles (stores w) !! id) as [info|]; [|simplify_eq; eauto].
    destruct (activeRooms (stores w) !! info_room info) as [rd0|] eqn:Hrd;
      cbv zeta in Hstep; simplify_eq; simpl; [|eauto].
    destruct (decide (info_room info = r)) as [<-|Hne].
    + rewrite lookup_insert_eq. simplify_eq. eexists. split; [done|].
      by destruct (strict_eq _ _).
    + rewrite lookup_insert_ne by done. eauto.
  - simpl in Hstep.
    destruct (tasks w !! n) as [[]|], o; simplify_eq; rewrite spawn_stores; eauto.
  - by destruct (Hi n).
  - simpl in Hstep. destruct (0 <=? ms)%Z; simplify_eq. eauto.
Qed.

Lemma socket_events_keep_room_identity_witness :
  exists rd',
    activeRooms (stores (after ServerJs.server two_guests_one_left)) !! lobby = Some rd' /\
    hotelName rd' = JStr "Unknown Hotel" /\
    createdAt rd' = 0%Z.
Proof.
  apply (socket_events_keep_room_identity server_js (disconnect_ev "g2")
           (after ServerJs.server two_guests) (after ServerJs.server two_guests_one_left)
           lobby (RoomData (JStr "Unknown Hotel") 0 ["g1"; "g2"; "r1"] (JStr "bn-IN"))).
  - discriminate.
  - vm_compute. reflexivity.
  - vm_compute. reflexivity.
Defined.

(** X9. After a join that is carried out, the room's guestLanguage is the
    language stored in the joiner's session when the role is guest; for any
    other role it is what it was before (null for a room the join created).
    The guestLanguage of every other room is unchanged. *)
Theorem join_guest_language (b : build) (id : string) (data : payload) (now : Z)
    (s : store) :
  (b = part_000 -> truthy (room data) = true /\ truthy (role data) = true) ->
  let s' := fst (on_join_room (handlers b) id data now s) in
  exists rd info,
    activeRooms s' !! room data = Some rd /\
    userRoles s' !! id = Some info /\
    (role data = JStr "guest" -> guestLanguage rd = info_language info) /\
    (role data <> JStr "guest" ->
     guestLanguage rd =
       match activeRooms s !! room data with
       | Some rd0 => guestLanguage rd0
       | None => JNull
       end) /\
    (forall r rd0, r <> room data -> activeRooms s !! r = Some rd0 ->
       exists rd1, activeRooms s' !! r = Some rd1 /\ guestLanguage rd1 = guestLanguage rd0).
Proof.
  intros Hok s'.
  assert (exists lang, s' = joined id data now lang s) as (lang & Hs').
  { subst s'. destruct b; simpl.
    - apply server_js_join.
    - destruct (Hok eq_refl) as [Hroom Hrole].
      destruct (part_000_join id data now s Hroom Hrole) as (lang & _ & H). eauto. }
  rewrite Hs'. clear s' Hs'.
  assert (userRoles (joined id data now lang s) !! id =
            Some (UserInfo (room data) (role data) lang)) as Hinfo.
  { unfold joined. simpl. apply lookup_insert_eq. }
  destruct (activeRooms s !! room data) as [rd0|] eqn:Hr.
  - destruct (joined_lookup id data now lang s (room data) rd0 Hr)
      as (rd' & H' & _ & _ & Hg).
    rewrite bool_decide_eq_true_2 in Hg by done. simpl in Hg.
    exists rd'. eexists. split; [done|]. split; [done|]. split; [|split].
    + intros Hrole. rewrite Hg, Hrole, strict_eq_refl. done.
    + intros Hrole. apply strict_eq_false in Hrole. by rewrite Hg, Hrole.
    + intros r rd1 Hne H1.
      destruct (joined_lookup id data now lang s r rd1 H1) as (rd2 & H2 & _ & _ & Hg2).
      rewrite bool_decide_eq_false_2 in Hg2 by done. eauto.
  - rewrite (joined_lookup_new id data now lang s Hr).
    eexists. eexists. split; [done|]. split; [done|]. simpl. split; [|split].
    + intros ->. by rewrite strict_eq_refl.
    + intros Hrole. apply strict_eq_false in Hrole. by rewrite Hrole.
    + intros r rd1 Hne H1.
      destruct (joined_lookup id data now lang s r rd1 H1) as (rd2 & H2 & _ & _ & Hg2).
      rewrite bool_decide_eq_false_2 in Hg2 by done. eauto.
Qed.

Lemma join_guest_language_witness :
  exists rd info,
    activeRooms (fst (Part000.join_room "g2" (joins lobby guest (JStr "ta-IN")) 9
                        (stores (after Part000.server desk_and_guest)))) !! lobby = Some rd /\
    userRoles (fst (Part000.join_room "g2" (joins lobby guest (JStr "ta-IN")) 9
                      (stores (after Part000.server desk_and_guest)))) !! "g2" = Some info /\
    guestLanguage rd = info_language info.
Proof.
  destruct (join_guest_language part_000 "g2" (joins lobby guest (JStr "ta-IN")) 9
              (stores (after Part000.server desk_and_guest))
              ltac:(intros _; split; reflexivity))
    as (rd & info & Hrd & Hinfo & Hguest & _).
  exists rd, info. split; [exact Hrd|]. split; [exact Hinfo|exact (Hguest eq_refl)].
Defined.

(** ** A room from its last disconnect to its cleanup *)

Lemma lookup_length_snoc {A} (l : list A) x : (l ++ [x]) !! length l = Some x.
Proof. by rewrite lookup_app_r, Nat.sub_diag. Qed.

Lemma delete_length_snoc {A} (l : list A) x : delete (length l) (l ++ [x]) = l.
Proof.
  induction l as [|y l IH]; [done|]. simpl. f_equal. exact IH.
Qed.

(** X10. When the only member of a room disconnects and at least 300000 ms
    pass, the cleanup that disconnect scheduled can fire, and then the room is
    gone from activeRooms, the session is gone and the timer queue is as
    before. *)
Theorem abandoned_room_is_deleted (b : build) (id : string) (w : world)
    (info : userInfo) (rd : roomData) (ms : Z) :
  userRoles (stores w) !! id = Some info ->
  activeRooms (stores w) !! info_room info = Some rd ->
  users_delete id (users rd) = [] ->
  (300000 <= ms)%Z ->
  exists w',
    steps (handlers b)
      [disconnect_ev id; elapse ms; timer_fired (length (timers w))] w = Some w' /\
    activeRooms (stores w') = delete (info_room info) (activeRooms (stores w)) /\
    userRoles (stores w') = delete id (userRoles (stores w)) /\
    timers w' = timers w.
Proof.
  intros Hs Hrd Hnil Hms.
  destruct (step_last_disconnect b id w info rd Hs Hrd Hnil)
    as (w1 & rd1 & Hstep & Hrooms & Hroles & Hempty & Hclock & Htimers & _).
  unfold steps. rewrite Hstep. simpl step at 1.
  assert ((0 <=? ms)%Z = true) as -> by (apply Z.leb_le; lia).
  rewrite step_timer. simpl. rewrite Htimers, lookup_length_snoc.
  assert ((clock w + 300000 <=? clock w1 + ms)%Z = true) as ->
    by (apply Z.leb_le; lia).
  rewrite Hrooms, lookup_insert_eq, Hempty. simpl.
  eexists. split; [reflexivity|]. simpl.
  rewrite delete_insert_eq, delete_length_snoc. auto.
Qed.

Lemma abandoned_room_is_deleted_witness :
  exists w',
    steps ServerJs.server [disconnect_ev "r1"; elapse 300000; timer_fired 0]
      (after ServerJs.server desk_only) = Some w' /\
    activeRooms (stores w') !! lobby = None.
Proof.
  destruct (abandoned_room_is_deleted server_js "r1" (after ServerJs.server desk_only)
              (UserInfo lobby receptionist (JStr "en-US"))
              (RoomData (JStr "Unknown Hotel") 0 ["r1"] JNull) 300000%Z
              ltac:(vm_compute; reflexivity) ltac:(vm_compute; reflexivity)
              ltac:(reflexivity) ltac:(lia))
    as (w' & Hsteps & Hrooms & _).
  exists w'. split; [exact Hsteps|]. rewrite Hrooms. apply lookup_delete_eq.
Defined.

(** Before the 300000 ms are over the cleanup of a room just abandoned cannot
    fire. *)
Theorem cleanup_waits_for_the_delay (b : build) (id : string) (w : world)
    (info : userInfo) (rd : roomData) (ms : Z) :
  userRoles (stores w) !! id = Some info ->
  activeRooms (stores w) !! info_room info = Some rd ->
  users_delete id (users rd) = [] ->
  (0 <= ms < 300000)%Z ->
  steps (handlers b)
    [disconnect_ev id; elapse ms; timer_fired (length (timers w))] w = None.
Proof.
  intros Hs Hrd Hnil Hms.
  destruct (step_last_disconnect b id w info rd Hs Hrd Hnil)
    as (w1 & rd1 & Hstep & Hrooms & Hroles & Hempty & Hclock & Htimers & _).
  unfold steps. rewrite Hstep. simpl step at 1.
  assert ((0 <=? ms)%Z = true) as -> by (apply Z.leb_le; lia).
  rewrite step_timer. simpl. rewrite Htimers, lookup_length_snoc.
  assert ((clock w + 300000 <=? clock w1 + ms)%Z = false) as ->
    by (apply Z.leb_gt; lia).
  reflexivity.
Qed.

Lemma cleanup_waits_for_the_delay_witness :
  steps Part000.server [disconnect_ev "r1"; elapse 299999; timer_fired 0]
    (after Part000.server desk_only) = None.
Proof.
  apply (cleanup_waits_for_the_delay part_000 "r1" (after Part000.server desk_only)
           (UserInfo lobby receptionist (JStr "en-US"))
           (RoomData (JStr "Unknown Hotel") 0 ["r1"] JNull) 299999%Z);
    [vm_compute; reflexivity|vm_compute; reflexivity|reflexivity|lia].
Defined.


(** X11. When the only member of a room disconnects and a connection joins
    that room before the scheduled cleanup fires, the cleanup leaves the room
    in place: it still exists with the same hotelName and createdAt and the
    newcomer as its only member. *)
Theorem rejoined_room_survives_cleanup (b : build) (id id2 : string) (data : payload)
    (w : world) (info : userInfo) (rd : roomData) (ms : Z) :
  userRoles (stores w) !! id = Some info ->
  activeRooms (stores w) !! info_room info = Some rd ->
  users_delete id (users rd) = [] ->
  room data = info_room info ->
  (b = part_000 -> truthy (room data) = true /\ truthy (role data) = true) ->
  (300000 <= ms)%Z ->
  exists w' rd',
    steps (handlers b)
      [disconnect_ev id; join_room_ev id2 data; elapse ms;
       timer_fired (length (timers w))] w = Some w' /\
    activeRooms (stores w') !! info_room info = Some rd' /\
    users rd' = [id2] /\
    hotelName rd' = hotelName rd /\
    createdAt rd' = createdAt rd /\
    timers w' = timers w.
Proof.
  intros Hs Hrd Hnil Hroom Hok Hms.
  destruct (step_last_disconnect b id w info rd Hs Hrd Hnil)
    as (w1 & rd1 & Hstep & Hrooms & Hroles & Hempty & Hclock & Htimers & Hh1 & Hc1).
  assert (exists lang,
            fst (on_join_room (handlers b) id2 data (clock w1) (stores w1)) =
              joined id2 data (clock w1) lang (stores w1)) as (lang & Hj).
  { destruct b; simpl.
    - apply server_js_join.
    - destruct (Hok eq_refl) as [Ht Hr].
      destruct (part_000_join id2 data (clock w1) (stores w1) Ht Hr) as (l & _ & H). eauto. }
  assert (activeRooms (stores w1) !! room data = Some rd1) as Hrd1.
  { rewrite Hrooms, Hroom. apply lookup_insert_eq. }
  destruct (leave_previous_lookup id2 (stores w1) (room data) rd1 Hrd1)
    as (rd2 & Hrd2 & Hh2 & Hc2 & _).
  assert (users rd2 = []) as Hempty2.
  { assert (forall u, ~ member (leave_previous id2 (stores w1)) (room data) u) as Hno.
    { intros u Hu. apply member_leave_previous in Hu as (rd3 & H3 & Hu).
      simplify_eq. rewrite Hempty in Hu. by apply elem_of_nil in Hu. }
    destruct (users rd2) as [|u us] eqn:Hus; [done|].
    destruct (Hno u). exists rd2. split; [done|]. rewrite Hus. apply list_elem_of_here. }
  unfold steps. rewrite Hstep. simpl step at 1.
  destruct (on_join_room (handlers b) id2 data (clock w1) (stores w1)) as [s2 acts2].
  simpl in Hj. subst s2. simpl step at 1.
  assert ((0 <=? ms)%Z = true) as -> by (apply Z.leb_le; lia).
  rewrite step_timer. simpl. rewrite Htimers, lookup_length_snoc.
  assert ((clock w + 300000 <=? clock w1 + ms)%Z = true) as ->
    by (apply Z.leb_le; lia).
  rewrite <- Hroom, lookup_insert_eq, users_if. unfold found_or_new. rewrite Hrd2.
  simpl. rewrite Hempty2. simpl.
  eexists. eexists. split; [reflexivity|]. simpl.
  rewrite lookup_insert_eq. split; [reflexivity|].
  rewrite users_if. simpl. rewrite delete_length_snoc.
  unfold found_or_new. rewrite Hrd2. simpl. rewrite Hempty2.
  repeat split; try (destruct (strict_eq _ _); simpl; congruence).
Qed.

Lemma rejoined_room_survives_cleanup_witness :
  exists w' rd',
    steps ServerJs.server
      [disconnect_ev "r1"; join_room_ev "g7" (joins lobby guest JUndefined);
       elapse 300000; timer_fired 0] (after ServerJs.server desk_only) = Some w' /\
    activeRooms (stores w') !! lobby = Some rd' /\
    users rd' = ["g7"].
Proof.
  destruct (rejoined_room_survives_cleanup server_js "r1" "g7"
              (joins lobby guest JUndefined) (after ServerJs.server desk_only)
              (UserInfo lobby receptionist (JStr "en-US"))
              (RoomData (JStr "Unknown Hotel") 0 ["r1"] JNull) 300000%Z
              ltac:(vm_compute; reflexivity) ltac:(vm_compute; reflexivity)
              ltac:(reflexivity) ltac:(reflexivity) ltac:(discriminate) ltac:(lia))
    as (w' & rd' & Hsteps & Hrd' & Husers & _).
  exists w', rd'. split; [exact Hsteps|]. split; [exact Hrd'|exact Husers].
Defined.

(** ** Moving between rooms *)

(** The sibling build answers a join without room or role with a private
    error and changes nothing. *)
Theorem rejected_join_changes_nothing (id : string) (data : payload) (w : world) :
  truthy (room data) = false \/ truthy (role data) = false ->
  step Part000.server (join_room_ev id data) w =
    Some (World (stores w) (clock w) (timers w) (tasks w)
            (log w ++ [Emitted (ToSocket id) (error_event "Missing room/role" JUndefined)])).
Proof.
  intros Hbad. simpl. by rewrite part_000_join_rejected.
Qed.

Lemma rejected_join_changes_nothing_witness :
  stores <$> step Part000.server (join_room_ev "g1" (joins JUndefined guest (JStr "ta-IN")))
               (after Part000.server desk_and_guest) =
    Some (stores (after Part000.server desk_and_guest)).
Proof.
  rewrite (rejected_join_changes_nothing "g1" (joins JUndefined guest (JStr "ta-IN"))
             (after Part000.server desk_and_guest) ltac:(left; reflexivity)).
  reflexivity.
Defined.

(** X12. A join to another room by a connection whose session names a truthy
    existing room removes the connection from that room's member set and moves
    the session, but leaves that room's guestLanguage, hotelName and createdAt
    as they were and schedules no cleanup, even when the leaver was the room's
    guest or its last member. *)
Theorem join_leaves_the_previous_room (b : build) (id : string) (data : payload)
    (w : world) (info : userInfo) (rd : roomData) :
  userRoles (stores w) !! id = Some info ->
  truthy (info_room info) = true ->
  info_room info <> room data ->
  activeRooms (stores w) !! info_room info = Some rd ->
  (b = part_000 -> truthy (room data) = true /\ truthy (role data) = true) ->
  exists w' rd',
    step (handlers b) (join_room_ev id data) w = Some w' /\
    activeRooms (stores w') !! info_room info = Some rd' /\
    users rd' = users_delete id (users rd) /\
    guestLanguage rd' = guestLanguage rd /\
    hotelName rd' = hotelName rd /\
    createdAt rd' = createdAt rd /\
    timers w' = timers w /\
    (exists info', userRoles (stores w') !! id = Some info' /\ info_room info' = room data).
Proof.
  intros Hs Hprev Hne Hrd Hok.
  assert (exists lang,
            fst (on_join_room (handlers b) id data (clock w) (stores w)) =
              joined id data (clock w) lang (stores w)) as (lang & Hj).
  { destruct b; simpl.
    - apply server_js_join.
    - destruct (Hok eq_refl) as [Ht Hr].
      destruct (part_000_join id data (clock w) (stores w) Ht Hr) as (l & _ & H). eauto. }
  simpl step.
  destruct (on_join_room (handlers b) id data (clock w) (stores w)) as [s acts].
  simpl in Hj. subst s.
  eexists. exists (set_users (users_delete id (users rd)) rd).
  split; [reflexivity|]. simpl.
  split; [|split; [done|split; [done|split; [done|split; [done|split; [done|]]]]]].
  - rewrite lookup_insert_ne by done. unfold leave_previous.
    rewrite Hs, Hprev, lookup_alter_eq, Hrd. done.
  - eexists. split; [apply lookup_insert_eq|done].
Qed.

Lemma join_leaves_the_previous_room_witness :
  exists w' rd',
    step ServerJs.server (join_room_ev "g1" (joins (JStr "bar") guest (JStr "bn-IN")))
      (after ServerJs.server desk_and_guest) = Some w' /\
    activeRooms (stores w') !! lobby = Some rd' /\
    users rd' = ["r1"] /\
    guestLanguage rd' = JStr "bn-IN".
Proof.
  destruct (join_leaves_the_previous_room server_js "g1"
              (joins (JStr "bar") guest (JStr "bn-IN"))
              (after ServerJs.server desk_and_guest)
              (UserInfo lobby guest (JStr "bn-IN"))
              (RoomData (JStr "Unknown Hotel") 0 ["g1"; "r1"] (JStr "bn-IN"))
              ltac:(vm_compute; reflexivity) ltac:(reflexivity) ltac:(discriminate)
              ltac:(vm_compute; reflexivity) ltac:(discriminate))
    as (w' & rd' & Hstep & Hrd' & Husers & Hguest & _).
  exists w', rd'. split; [exact Hstep|]. split; [exact Hrd'|]. split; [exact Husers|exact Hguest].
Defined.

(** ** The message pipeline *)

(** X13. For an authorized message that declares role guest, the translation
    goes to en-US from the language the message carries when it is truthy,
    else from the language of the sender's session as it was when the handler
    started, whatever the stores hold when the transcription has settled. *)
Theorem guest_direction (b : build) (id : string) (data : payload) (s : store)
    (info : userInfo) :
  userRoles s !! id = Some info ->
  info_room info = room data ->
  role data = JStr "guest" ->
  (forall sched,
     resolved_direction (run (on_text_message (handlers b) id data) s sched) =
       Some (js_or (language data) (info_language info), JStr "en-US")) /\
  (forall r s1 rest,
     has_speech (transcript r) = true ->
     resolved_direction
       (run (on_audio_message (handlers b) id data) s
          ((SttSettled (Resolved r), s1) :: rest)) =
       Some (js_or (language data) (info_language info), JStr "en-US")).
Proof.
  intros Hs Hroom Hrole. split.
  - intros sched. destruct b; simpl; unfold ServerJs.direction;
      rewrite Hs, Hroom, Hrole, !strict_eq_refl; reflexivity.
  - intros r s1 rest Hsp. unfold has_speech in Hsp.
    destruct b; simpl; unfold ServerJs.direction;
      rewrite Hs, Hroom, Hrole, !strict_eq_refl; simpl;
      rewrite ?server_js_guard, ?part_000_guard, Hsp; simpl;
      rewrite ?strict_eq_refl; reflexivity.
Qed.

Lemma guest_direction_witness :
  resolved_direction
    (run (Part000.text_message "g1" guest_says)
       (stores (after Part000.server desk_and_guest)) []) =
    Some (JStr "bn-IN", JStr "en-US").
Proof.
  apply (proj1 (guest_direction part_000 "g1" guest_says
                  (stores (after Part000.server desk_and_guest))
                  (UserInfo lobby guest (JStr "bn-IN"))
                  ltac:(vm_compute; reflexivity) ltac:(reflexivity) ltac:(reflexivity)) []).
Defined.

(** X14. An authorized text message whose translation resolves produces, in
    this order, the translating status, one call to the translator with the
    message text, one translation event and the complete status, all broadcast
    to the declared room; the event carries room, role, sender id, the text
    and both languages, confidence 1.0 and ttsAvailable false, and as
    translated text the translator's text (in part_000 the empty string when
    that is falsy). *)
Theorem text_message_delivery (b : build) (id : string) (data : payload) (s s2 : store)
    (info : userInfo) (t : translationResult) :
  userRoles s !! id = Some info ->
  info_room info = room data ->
  exists src tgt m,
    run (on_text_message (handlers b) id data) s [(TrSettled (Resolved t), s2)] =
      [ Emitted (ToRoom (room data))
          (processing_status "translating" (role data) JUndefined);
        CalledTranslate (text data) src tgt;
        Emitted (ToRoom (room data)) (translation m);
        Emitted (ToRoom (room data))
          (processing_status "complete" JUndefined JUndefined) ] /\
    msg_room m = room data /\
    speaker m = role data /\
    speakerId m = id /\
    spoken_text (original m) = text data /\
    spoken_language (original m) = src /\
    spoken_language (translated m) = tgt /\
    spoken_text (translated m) =
      match b with
      | server_js => translated_text t
      | part_000 => js_or (translated_text t) (JStr "")
      end /\
    msg_confidence m = 1.0%Q /\
    ttsAvailable m = false.
Proof.
  intros Hs Hroom.
  destruct b; simpl; unfold ServerJs.direction;
    rewrite Hs, Hroom, strict_eq_refl; simpl;
    destruct (strict_eq (role data) (JStr "guest")); simpl;
    eexists; eexists; eexists; (split; [reflexivity|]); simpl; auto 10.
Qed.

Lemma text_message_delivery_witness :
  exists m,
    last (run (ServerJs.text_message "r1" desk_says)
            (stores (after ServerJs.server desk_and_guest))
            [(rendered "ghar taiyar", stores (after ServerJs.server desk_and_guest))]) =
      Some (Emitted (ToRoom lobby) (processing_status "complete" JUndefined JUndefined)) /\
    speakerId m = "r1".
Proof.
  destruct (text_message_delivery server_js "r1" desk_says
              (stores (after ServerJs.server desk_and_guest))
              (stores (after ServerJs.server desk_and_guest))
              (UserInfo lobby receptionist (JStr "en-US"))
              (TranslationResult (JStr "ghar taiyar"))
              ltac:(vm_compute; reflexivity) ltac:(reflexivity))
    as (src & tgt & m & Hrun & _ & _ & Hid & _).
  exists m. split; [|exact Hid].
  change (on_text_message (handlers server_js)) with ServerJs.text_message in Hrun.
  unfold rendered. rewrite Hrun. reflexivity.
Defined.

(** X15. An authorized audio message with speech produces, in this order, the
    transcribing status, the transcription call on the decoded audio, the
    translating status, the translation call, the translation event and the
    complete status, all broadcast to the declared room. The text sent to the
    translator and shown as original is the transcript as returned in
    src/server.js and the trimmed transcript in part_000. *)
Theorem audio_message_delivery (b : build) (id : string) (data : payload)
    (s s1 s2 : store) (info : userInfo) (r : sttResult) (t : translationResult) :
  userRoles s !! id = Some info ->
  info_room info = room data ->
  has_speech (transcript r) = true ->
  exists lang txt src tgt m,
    run (on_audio_message (handlers b) id data) s
      [(SttSettled (Resolved r), s1); (TrSettled (Resolved t), s2)] =
      [ Emitted (ToRoom (room data))
          (processing_status "transcribing" (role data) JUndefined);
        CalledTranscribe (Buffer_from (audioData data)) lang;
        Emitted (ToRoom (room data))
          (processing_status "translating" (role data) JUndefined);
        CalledTranslate txt src tgt;
        Emitted (ToRoom (room data)) (translation m);
        Emitted (ToRoom (room data))
          (processing_status "complete" JUndefined JUndefined) ] /\
    msg_room m = room data /\
    speaker m = role data /\
    speakerId m = id /\
    spoken_text (original m) = txt /\
    txt =
      match b with
      | server_js => transcript r
      | part_000 => js_trim (transcript r)
      end /\
    spoken_language (original m) = src /\
    spoken_language (translated m) = tgt /\
    ttsAvailable m = false.
Proof.
  intros Hs Hroom Hsp. unfold has_speech in Hsp.
  assert (js_or (transcript r) (JStr "") = transcript r) as Hor.
  { unfold js_or. destruct (transcript r) as [| |x]; try done.
    simpl. destruct (String.eqb_spec x "") as [->|]; done. }
  destruct b; simpl; unfold ServerJs.direction;
    rewrite Hs, Hroom, strict_eq_refl; simpl;
    rewrite ?server_js_guard, ?part_000_guard, Hsp; simpl;
    destruct (strict_eq (role data) (JStr "guest")); simpl;
    eexists; eexists; eexists; eexists; eexists; (split; [reflexivity|]); simpl;
    rewrite ?Hor; auto 10.
Qed.

Lemma audio_message_delivery_witness :
  exists m,
    spoken_text (original m) = JStr "namaste" /\
    In (Emitted (ToRoom lobby) (translation m))
      (run (Part000.audio_message "g1" (speaks lobby guest JUndefined "UklGRg=="))
         (stores (after Part000.server desk_and_guest))
         [(heard " namaste " None, stores (after Part000.server desk_and_guest));
          (rendered "hello", stores (after Part000.server desk_and_guest))]).
Proof.
  destruct (audio_message_delivery part_000 "g1" (speaks lobby guest JUndefined "UklGRg==")
              (stores (after Part000.server desk_and_guest))
              (stores (after Part000.server desk_and_guest))
              (stores (after Part000.server desk_and_guest))
              (UserInfo lobby guest (JStr "bn-IN"))
              (SttResult (JStr " namaste ") None) (TranslationResult (JStr "hello"))
              ltac:(vm_compute; reflexivity) ltac:(reflexivity) ltac:(reflexivity))
    as (lang & txt & src & tgt & m & Hrun & _ & _ & _ & Htext & Htxt & _).
  exists m. split; [by rewrite Htext, Htxt|].
  change (on_audio_message (handlers part_000)) with Part000.audio_message in Hrun.
  unfold heard, rendered. rewrite Hrun. simpl. auto 10.
Defined.

Ltac run_cases :=
  repeat first
    [ progress simpl
    | progress unfold ServerJs.direction
    | match goal with
      | |- context [match ?x with _ => _ end] =>
          lazymatch x with
          | context [match _ with _ => _ end] => fail
          | _ => destruct x eqn:?
          end
      end ].

(** X16. However the collaborator calls settle, a message handler calls the
    transcription service at most once (never for a text message), the
    translation service at most once, and emits at most one translation event. *)
Theorem no_retry (b : build) (k : kind) (id : string) (data : payload) (s : store)
    (sched : list (settlement * store)) :
  let acts := run (on_message (handlers b) k id data) s sched in
  count calls_transcribe acts <= (match k with Audio => 1 | Text => 0 end) /\
  count calls_translate acts <= 1 /\
  count emits_translation acts <= 1.
Proof.
  destruct b, k; cbv zeta; run_cases; lia.
Qed.


(** X18. When the transcription or the translation of an authorized message is
    rejected, no translation event is emitted, the only private event is the
    error event to the sender carrying the failure text (err.message in
    src/server.js, String(err.message || err) in part_000), and after a failed
    transcription the translator is not called. *)
Theorem failed_call_drops_the_message (b : build) (id : string) (data : payload)
    (s s1 s2 : store) (info : userInfo) (e : exn) (r : sttResult) :
  userRoles s !! id = Some info ->
  info_room info = room data ->
  let detail :=
    match b with
    | server_js => exn_message e
    | part_000 => Part000.error_text e
    end in
  let dropped (acts : list action) :=
    count emits_translation acts = 0 /\
    private_targets acts = [id] /\
    exists what, In (Emitted (ToSocket id) (error_event what detail)) acts in
  (dropped (run (on_audio_message (handlers b) id data) s [(SttSettled (Rejected e), s1)]) /\
   count calls_translate
     (run (on_audio_message (handlers b) id data) s [(SttSettled (Rejected e), s1)]) = 0) /\
  dropped (run (on_text_message (handlers b) id data) s [(TrSettled (Rejected e), s2)]) /\
  (has_speech (transcript r) = true ->
   dropped (run (on_audio_message (handlers b) id data) s
              [(SttSettled (Resolved r), s1); (TrSettled (Rejected e), s2)])).
Proof.
  intros Hs Hroom detail dropped. subst detail dropped. cbv beta.
  split; [|split].
  - destruct b; simpl; rewrite Hs, Hroom, strict_eq_refl; simpl;
      run_cases; repeat split; eauto.
  - destruct b; simpl; unfold ServerJs.direction; rewrite Hs, Hroom, strict_eq_refl; simpl;
      run_cases; repeat split; eauto 6.
  - intros Hsp. unfold has_speech in Hsp.
    destruct b; simpl; unfold ServerJs.direction; rewrite Hs, Hroom, strict_eq_refl; simpl;
      rewrite ?server_js_guard, ?part_000_guard, Hsp; simpl;
      run_cases; repeat split; eauto 8.
Qed.

Lemma failed_call_drops_the_message_witness :
  private_targets
    (run (Part000.text_message "g1" guest_says)
       (stores (after Part000.server desk_and_guest))
       [(TrSettled (Rejected boom), stores (after Part000.server desk_and_guest))]) =
    ["g1"].
Proof.
  apply (proj1 (proj2 (failed_call_drops_the_message part_000 "g1" guest_says
                         (stores (after Part000.server desk_and_guest))
                         (stores (after Part000.server desk_and_guest))
                         (stores (after Part000.server desk_and_guest))
                         (UserInfo lobby guest (JStr "bn-IN")) boom
                         (SttResult JUndefined None)
                         ltac:(vm_compute; reflexivity) ltac:(reflexivity)))).
Defined.

(** X19. An authorized audio message is transcribed in the message's language,
    or else the session's, for every role in src/server.js; part_000 does so
    for guests and uses en-US for every other role. Hence in part_000 the
    transcription language is always the source language of the translation,
    while in src/server.js a non-guest message is translated from en-US
    whatever language it was transcribed in. *)
Theorem transcription_language_of_a_message (b : build) (id : string) (data : payload)
    (s : store) (info : userInfo) (sched : list (settlement * store)) :
  userRoles s !! id = Some info ->
  info_room info = room data ->
  let spoken := js_or (language data) (info_language info) in
  transcription_language (run (on_audio_message (handlers b) id data) s sched) =
    Some (match b with
          | server_js => spoken
          | part_000 => if strict_eq (role data) (JStr "guest") then spoken else JStr "en-US"
          end) /\
  (forall src tgt,
     resolved_direction (run (on_audio_message (handlers b) id data) s sched) =
       Some (src, tgt) ->
     match b with
     | part_000 =>
         transcription_language (run (on_audio_message (handlers b) id data) s sched) =
           Some src
     | server_js => src = if strict_eq (role data) (JStr "guest") then spoken else JStr "en-US"
     end).
Proof.
  intros Hs Hroom spoken. subst spoken. split.
  - destruct b; simpl; rewrite Hs, Hroom, strict_eq_refl; reflexivity.
  - intros src tgt.
    destruct b; simpl; unfold ServerJs.direction; rewrite Hs, Hroom, strict_eq_refl; simpl;
      run_cases; intros; simplify_eq; reflexivity.
Qed.

Lemma transcription_language_of_a_message_witness :
  transcription_language
    (run (ServerJs.audio_message "r1" (speaks lobby receptionist (JStr "fr-FR") "UklGRg=="))
       (stores (after ServerJs.server desk_and_guest)) []) = Some (JStr "fr-FR").
Proof.
  apply (proj1 (transcription_language_of_a_message server_js "r1"
                  (speaks lobby receptionist (JStr "fr-FR") "UklGRg==")
                  (stores (after ServerJs.server desk_and_guest))
                  (UserInfo lobby receptionist (JStr "en-US")) []
                  ltac:(vm_compute; reflexivity) ltac:(reflexivity))).
Defined.

(** X20. After a connection's disconnect, any audio or text message from it,
    for whatever room, gets only the private 'Not authorized for this room'
    error. *)
Theorem disconnected_sender_is_unauthorized (b : build) (id : string) (w w' : world)
    (k : kind) (data : payload) (sched : list (settlement * store)) :
  step (handlers b) (disconnect_ev id) w = Some w' ->
  run (on_message (handlers b) k id data) (stores w') sched =
    [Emitted (ToSocket id) (error_event "Not authorized for this room" JUndefined)].
Proof.
  intros Hstep. apply unauthorized_run. intros info Hinfo.
  by rewrite (disconnect_removes_session b id w w' Hstep) in Hinfo.
Qed.

Lemma disconnected_sender_is_unauthorized_witness :
  run (ServerJs.text_message "g2" guest_says)
    (stores (after ServerJs.server two_guests_one_left)) [] =
    [Emitted (ToSocket "g2") (error_event "Not authorized for this room" JUndefined)].
Proof.
  apply (disconnected_sender_is_unauthorized server_js "g2"
           (after ServerJs.server two_guests) (after ServerJs.server two_guests_one_left)
           Text guest_says []).
  vm_compute. reflexivity.
Defined.

(** ** The guest language of a room *)

Lemma first_guest_language_truthy roles us :
  truthy (ServerJs.first_guest_language roles us) = true.
Proof.
  induction us as [|u us IH]; simpl; [done|].
  destruct (roles !! u) as [i|]; [|done].
  destruct (strict_eq _ _); [|done].
  unfold js_or. by destruct (truthy (info_language i)) eqn:Hl.
Qed.

(** X21. getGuestLanguageInRoom never returns undefined, null or the empty
    string, in either build and for any room and stores: a non-guest message
    always has a target language. *)
Theorem guest_language_is_never_missing (b : build) (r : jsval) (s : store) :
  truthy (getGuestLanguageInRoom b r s) = true.
Proof.
  destruct b; simpl.
  - unfold ServerJs.getGuestLanguageInRoom.
    destruct (activeRooms s !! r) as [rd|]; [|done].
    destruct (truthy (guestLanguage rd)) eqn:Hg; [done|].
    apply first_guest_language_truthy.
  - unfold Part000.getGuestLanguageInRoom, js_or.
    destruct (activeRooms s !! r) as [rd|]; [|done].
    by destruct (truthy (guestLanguage rd)) eqn:Hg.
Qed.

(** ** Sessions of the sibling build *)

Lemma part_000_step_complete i w w' :
  step Part000.server i w = Some w' ->
  sessions_complete (stores w) -> sessions_complete (stores w').
Proof.
  intros Hstep Hc. destruct i as [id data|id data|id data|id data|id|n o|n|ms].
  - simpl in Hstep.
    destruct (truthy (room data)) eqn:Hroom; [destruct (truthy (role data)) eqn:Hrole|].
    + destruct (part_000_join id data (clock w) (stores w) Hroom Hrole) as (lang & Hl & Hj).
      destruct (Part000.join_room id data (clock w) (stores w)) as [s acts].
      simpl in Hj. simplify_eq. intros u info. unfold joined. simpl.
      destruct (decide (u = id)) as [->|Hne].
      * rewrite lookup_insert_eq. intros ?. by simplify_eq.
      * rewrite lookup_insert_ne by done. apply Hc.
    + rewrite part_000_join_rejected in Hstep by auto. by simplify_eq.
    + rewrite part_000_join_rejected in Hstep by auto. by simplify_eq.
  - simpl in Hstep. simplify_eq. by rewrite spawn_stores.
  - simpl in Hstep. simplify_eq. by rewrite spawn_stores.
  - simpl in Hstep. by simplify_eq.
  - change Part000.server with (handlers part_000) in Hstep.
    rewrite step_disconnect in Hstep.
    destruct (userRoles (stores w) !! id) as [info|] eqn:Hi; [|by simplify_eq].
    destruct (activeRooms (stores w) !! info_room info);
      cbv zeta in Hstep; simplify_eq; intros u i Hu; simpl in Hu;
      apply lookup_delete_Some in Hu as [_ Hu]; by eapply Hc.
  - simpl in Hstep.
    destruct (tasks w !! n) as [[]|], o; simplify_eq; by rewrite spawn_stores.
  - change Part000.server with (handlers part_000) in Hstep.
    rewrite step_timer in Hstep.
    destruct (timers w !! n) as [[due r]|]; [|done].
    destruct (due <=? clock w)%Z; [|done].
    destruct (activeRooms (stores w) !! r) as [rd|]; [|by simplify_eq].
    destruct (length (users rd) =? 0)%nat; by simplify_eq.
  - simpl in Hstep. destruct (0 <=? ms)%Z; by simplify_eq.
Qed.

Lemma part_000_reachable_complete w :
  reachable Part000.server w -> sessions_complete (stores w).
Proof.
  induction 1 as [|i w w' _ IH Hstep].
  - intros id info Hid. simpl in Hid. by rewrite lookup_empty in Hid.
  - by eapply part_000_step_complete.
Qed.

(** X22. In every reachable state of part_000 each session has a truthy room,
    role and language: the join handler rejects a missing room or role and
    defaults the language. *)
Theorem part_000_sessions_are_complete (w : world) (id : string) (info : userInfo) :
  reachable Part000.server w ->
  userRoles (stores w) !! id = Some info ->
  truthy (info_room info) = true /\
  truthy (info_role info) = true /\
  truthy (info_language info) = true.
Proof. intros Hreach. by apply part_000_reachable_complete. Qed.

Lemma part_000_sessions_are_complete_witness :
  truthy (info_language (UserInfo lobby receptionist (JStr "en-US"))) = true.
Proof.
  apply (part_000_sessions_are_complete (after Part000.server desk_only) "r1"
           (UserInfo lobby receptionist (JStr "en-US"))
           ltac:(apply after_reachable; vm_compute; eauto)
           ltac:(vm_compute; reflexivity)).
Defined.

(** X23. In every reachable state of part_000, whenever a message handler
    calls the translator, both the source and the target language are truthy. *)
Theorem part_000_translates_between_languages (w : world) (k : kind) (id : string)
    (data : payload) (sched : list (settlement * store)) (src tgt : jsval) :
  reachable Part000.server w ->
  resolved_direction (run (on_message Part000.server k id data) (stores w) sched) =
    Some (src, tgt) ->
  truthy src = true /\ truthy tgt = true.
Proof.
  intros Hreach. pose proof (part_000_reachable_complete w Hreach) as Hc.
  assert (forall r s, truthy (Part000.getGuestLanguageInRoom r s) = true) as Hg.
  { intros r s. unfold Part000.getGuestLanguageInRoom, js_or.
    destruct (activeRooms s !! r) as [rd|]; [|done].
    by destruct (truthy (guestLanguage rd)) eqn:Hgl. }
  assert (forall info, userRoles (stores w) !! id = Some info ->
            truthy (js_or (language data) (info_language info)) = true) as Hsrc.
  { intros info Hinfo. destruct (Hc id info Hinfo) as (_ & _ & Hl).
    unfold js_or. by destruct (truthy (language data)) eqn:Hd. }
  destruct k; simpl; run_cases; intros ?; simplify_eq; split; auto.
Qed.

Lemma part_000_translates_between_languages_witness :
  truthy (JStr "bn-IN") = true /\ truthy (JStr "en-US") = true.
Proof.
  apply (part_000_translates_between_languages (after Part000.server desk_and_guest)
           Text "g1" guest_says [] (JStr "bn-IN") (JStr "en-US")
           ltac:(apply after_reachable; vm_compute; eauto)
           ltac:(vm_compute; reflexivity)).
Defined.

(** ** The HTTP routes *)

Lemma append_assoc (a b c : string) : ((a ++ b) ++ c = a ++ (b ++ c))%string.
Proof.
  induction a as [|x a IH]; [done|].
  change (String x ((a ++ b) ++ c) = String x (a ++ (b ++ c)))%string. by f_equal.
Qed.

Lemma generate_room_shape b req now created suffix s :
  exists url,
    generate_room b req now created suffix s =
      (Store
         (<[ JStr ("room_" ++ Number_toString now ++ "_" ++ suffix)%string :=
               RoomData (js_or (body_hotelName req) (JStr "Unknown Hotel")) created []
                 JNull ]> (activeRooms s))
         (userRoles s),
       RoomResponse ("room_" ++ Number_toString now ++ "_" ++ suffix)%string url url) /\
    exists base,
      url = (base ++ "?room=" ++ ("room_" ++ Number_toString now ++ "_" ++ suffix))%string.
Proof.
  destruct b; simpl; unfold ServerJs.generate_room, Part000.generate_room; cbv zeta;
    eexists; (split; [reflexivity|]).
  - eexists. reflexivity.
  - exists ((before_comma
                (to_string (js_or (js_or (x_forwarded_proto req) (JStr (protocol req)))
                              (JStr "https"))) ++ "://" ++ to_string (host req)) ++ "/")%string.
    rewrite (append_assoc _ "/"). reflexivity.
Qed.

(** X24. After POST /api/generate-room, get_room_info for the returned roomId
    answers with the requested hotel name ('Unknown Hotel' when absent or
    empty), zero users, the creation time and a null guest language; sessions
    and all other rooms are untouched, qrData equals guestUrl, and guestUrl
    ends in '?room=' followed by the roomId. *)
Theorem generated_room_is_listed (b : build) (req : request) (now created : Z)
    (suffix : string) (s : store) (id : string) :
  let s' := fst (generate_room b req now created suffix s) in
  let resp := snd (generate_room b req now created suffix s) in
  on_get_room_info (handlers b) id (asks_for (roomId resp)) s' =
    [ Emitted (ToSocket id)
        (room_info (js_or (body_hotelName req) (JStr "Unknown Hotel")) 0 created JNull) ] /\
  userRoles s' = userRoles s /\
  (forall r, r <> JStr (roomId resp) -> activeRooms s' !! r = activeRooms s !! r) /\
  qrData resp = guestUrl resp /\
  exists base, guestUrl resp = (base ++ "?room=" ++ roomId resp)%string.
Proof.
  destruct (generate_room_shape b req now created suffix s) as (url & -> & base & ->).
  simpl. split; [|split; [|split; [|split]]].
  - destruct b; simpl; unfold ServerJs.get_room_info, Part000.get_room_info; simpl;
      by rewrite lookup_insert_eq.
  - reflexivity.
  - intros r Hne. by rewrite lookup_insert_ne.
  - reflexivity.
  - eauto.
Qed.

(** *** Room identities *)

Lemma without_underscore_cons c s :
  c <> "_"%char -> without_underscore s -> without_underscore (String c s).
Proof. intros Hc Hs [|n]; simpl; [congruence|apply Hs]. Qed.

Lemma without_underscore_inv c s :
  without_underscore (String c s) -> c <> "_"%char /\ without_underscore s.
Proof.
  intros H. split.
  - intros ->. by apply (H 0).
  - intros n. apply (H (S n)).
Qed.

Lemma string_of_uint_plain d : without_underscore (NilEmpty.string_of_uint d).
Proof.
  induction d; simpl; try (apply without_underscore_cons; [discriminate|done]).
  intros n. by destruct n.
Qed.

Lemma Number_toString_plain z : without_underscore (Number_toString z).
Proof.
  unfold Number_toString. destruct (Z.to_int z) as [d|d]; simpl.
  - apply string_of_uint_plain.
  - apply without_underscore_cons; [discriminate|apply string_of_uint_plain].
Qed.

Lemma Number_toString_inj z z' : Number_toString z = Number_toString z' -> z = z'.
Proof.
  unfold Number_toString. intros H. apply DecimalZ.to_int_inj.
  apply (f_equal NilEmpty.int_of_string) in H. rewrite !NilEmpty.isi in H. congruence.
Qed.

(** Two texts that agree up to and after their first underscore. *)
Lemma split_at_underscore a a' r r' :
  without_underscore a -> without_underscore a' ->
  (a ++ "_" ++ r = a' ++ "_" ++ r')%string -> a = a' /\ r = r'.
Proof.
  revert a'. induction a as [|c a IH]; intros [|c' a'] Ha Ha' H.
  - simpl in H. by simplify_eq.
  - apply without_underscore_inv in Ha' as [Hc' _].
    change (String "_" r = String c' (a' ++ "_" ++ r'))%string in H. congruence.
  - apply without_underscore_inv in Ha as [Hc _].
    change (String c (a ++ "_" ++ r) = String "_" r')%string in H. congruence.
  - apply without_underscore_inv in Ha as [_ Ha].
    apply without_underscore_inv in Ha' as [_ Ha'].
    change (String c (a ++ "_" ++ r) = String c' (a' ++ "_" ++ r'))%string in H.
    injection H as -> H. destruct (IH a' Ha Ha' H) as [-> ->]. done.
Qed.

(** X25. Two generated room ids are equal only if both the timestamp and the
    random suffix are equal, whatever characters the suffix contains. *)
Theorem room_ids_are_distinct (b : build) (req req' : request)
    (now created now' created' : Z) (suffix suffix' : string) (s s' : store) :
  roomId (snd (generate_room b req now created suffix s)) =
    roomId (snd (generate_room b req' now' created' suffix' s')) ->
  now = now' /\ suffix = suffix'.
Proof.
  destruct (generate_room_shape b req now created suffix s) as (url & -> & _).
  destruct (generate_room_shape b req' now' created' suffix' s') as (url' & -> & _).
  simpl. intros H.
  change (String "r" (String "o" (String "o" (String "m" (String "_"
            (Number_toString now ++ "_" ++ suffix))))) =
          String "r" (String "o" (String "o" (String "m" (String "_"
            (Number_toString now' ++ "_" ++ suffix'))))))%string in H.
  injection H as H.
  apply split_at_underscore in H as [Hnow ->]; try apply Number_toString_plain.
  split; [|done]. by apply Number_toString_inj.
Qed.

Lemma room_ids_are_distinct_witness : 1700000000123%Z = 1700000000123%Z /\ "k3x9ab" = "k3x9ab".
Proof.
  apply (room_ids_are_distinct server_js
           (Request JUndefined "http" (JStr "localhost:3000") JUndefined)
           (Request (JStr "Taj") "https" (JStr "antar.example") JUndefined)
           1700000000123 1700000000123 1700000000123 1700000000124
           "k3x9ab" "k3x9ab" (stores init) (stores init)).
  reflexivity.
Defined.

(** X26. Generating a room under an id that is not yet in activeRooms
    preserves each of: member sets agreeing with sessions, every session's
    room existing and listing its connection, and member sets without
    duplicates. *)
Theorem fresh_room_keeps_the_stores_sound (b : build) (req : request) (now created : Z)
    (suffix : string) (s : store) :
  activeRooms s !! JStr (roomId (snd (generate_room b req now created suffix s))) = None ->
  let s' := fst (generate_room b req now created suffix s) in
  (consistent s -> consistent s') /\
  (linked s -> linked s') /\
  (distinct_members s -> distinct_members s').
Proof.
  destruct (generate_room_shape b req now created suffix s) as (url & -> & _).
  simpl. set (r := JStr _). intros Hfresh.
  assert (forall r' u,
            member (<[ r := RoomData (js_or (body_hotelName req) (JStr "Unknown Hotel"))
                              created [] JNull ]> (activeRooms s)) r' u <->
            member (activeRooms s) r' u) as Hm.
  { intros r' u. unfold member. destruct (decide (r = r')) as [<-|Hne].
    - rewrite lookup_insert_eq, Hfresh. split.
      + intros (rd & ? & Hu). simplify_eq. by apply elem_of_nil in Hu.
      + intros (rd & ? & _). done.
    - by rewrite lookup_insert_ne. }
  split; [|split].
  - intros Hc. apply consistent_member. intros r' u. simpl.
    rewrite Hm. apply Hc.
  - intros Hl id info Hid. simpl in *. apply Hm. by apply Hl.
  - intros Hd r' rd. simpl. destruct (decide (r = r')) as [<-|Hne].
    + rewrite lookup_insert_eq. intros ?. simplify_eq. apply NoDup_nil_2.
    + rewrite lookup_insert_ne by done. apply Hd.
Qed.

Lemma fresh_room_keeps_the_stores_sound_witness :
  linked (fst (ServerJs.generate_room
                 (Request JUndefined "http" (JStr "localhost:3000") JUndefined)
                 5 5 "k3x9ab" (stores init))).
Proof.
  apply (proj1 (proj2 (fresh_room_keeps_the_stores_sound server_js
                         (Request JUndefined "http" (JStr "localhost:3000") JUndefined)
                         5 5 "k3x9ab" (stores init)
                         ltac:(vm_compute; reflexivity)))).
  intros id info Hid. vm_compute in Hid. discriminate.
Defined.

(** X27. GET /health reports azureSpeech (azureTranslator) as true exactly
    when both the key and the region variable are non-empty; src/server.js
    always answers status ok, part_000 answers ok exactly when both services
    are configured and degraded otherwise. *)
Theorem health_reports_configuration (b : build) (env : environment) :
  let h := health b env in
  (azureSpeech h = true <->
   truthy (AZURE_SPEECH_KEY env) = true /\ truthy (AZURE_SPEECH_REGION env) = true) /\
  (azureTranslator h = true <->
   truthy (AZURE_TRANSLATOR_KEY env) = true /\
   truthy (AZURE_TRANSLATOR_REGION env) = true) /\
  match b with
  | server_js => health_status h = "ok"
  | part_000 =>
      (health_status h = "ok" <-> azureSpeech h = true /\ azureTranslator h = true) /\
      (health_status h = "degraded" <-> azureSpeech h = false \/ azureTranslator h = false)
  end.
Proof.
  assert (forall a c, truthy (js_and a c) = true <-> truthy a = true /\ truthy c = true)
    as Hand.
  { intros a c. unfold js_and. destruct (truthy a) eqn:Ha; [tauto|].
    rewrite Ha. split; [done|]. by intros []. }
  destruct b; simpl; (split; [apply Hand|]); (split; [apply Hand|]); [done|].
  destruct (truthy (js_and (AZURE_SPEECH_KEY env) (AZURE_SPEECH_REGION env))),
    (truthy (js_and (AZURE_TRANSLATOR_KEY env) (AZURE_TRANSLATOR_REGION env)));
    simpl; intuition congruence.
Qed.

(** X28. The two builds know the same language tags and give each the same
    display name, except en-US and en-IN; or-IN and od-IN share one name in
    both. *)
Theorem language_names_agree_except_english (tag : string) :
  (tag <> "en-US" -> tag <> "en-IN" ->
   ServerJs.languageNames tag = Part000.languageNames tag) /\
  (is_Some (ServerJs.languageNames tag) <-> is_Some (Part000.languageNames tag)) /\
  ServerJs.languageNames "or-IN" = ServerJs.languageNames "od-IN" /\
  Part000.languageNames "or-IN" = Part000.languageNames "od-IN".
Proof.
  unfold ServerJs.languageNames, Part000.languageNames.
  split; [|split; [|split; reflexivity]].
  - intros Hus Hin.
    repeat match goal with
           | |- context [String.eqb tag ?s] =>
               destruct (String.eqb_spec tag s); [subst; try done|]
           end; done.
  - repeat match goal with
           | |- context [String.eqb tag ?s] =>
               destruct (String.eqb_spec tag s); [subst; simpl; by split; eauto|]
           end; done.
Qed.
